(** * Primary Flight Display simulator: flight logic and layout

    Shallow embedding of [src/example.py] (the simulation loop: event
    handling, the flight-mode controller, g-load and heading dynamics) and of
    [src/pfd/pfd.py] (the aircraft-state snapshot and the layout computed by
    [PrimaryFlightDisplay.__init__]).

    The Python code computes on binary64 floats.  The definitions below are
    written once, over an interface [Arith] of the arithmetic the code uses,
    and are read at two instances:
    - [FloatArith]: Rocq's primitive binary64 floats, which compute bit for
      bit what CPython and numpy compute;
    - [ExactArith]: the rationals, i.e. the same formulas without rounding.
    The trigonometric calls [np.tan(np.radians x)] and [np.cos(np.radians x)]
    go to the C library; they are an interface [Trig] of their own. *)

From Stdlib Require Import ZArith QArith Qround Qabs Qpower Floats Bool List Lia Lqa.
Import ListNotations.

Set Warnings "-inexact-float".
Local Open Scope Z_scope.

(** ** Arithmetic interface *)

Class Arith (F : Type) : Type := {
  ofZ  : Z -> F;            (* int -> float conversion *)
  fadd : F -> F -> F;
  fsub : F -> F -> F;
  fmul : F -> F -> F;
  fdiv : F -> F -> F;       (* x / y, for y <> 0 *)
  fmod : F -> F -> F;       (* Python's x % y, for y <> 0 *)
  fabs : F -> F;
  feqb : F -> F -> bool;    (* x == y *)
  fltb : F -> F -> bool;    (* x < y *)
  fleb : F -> F -> bool     (* x <= y *)
}.

Class Trig (F : Type) : Type := {
  tan_rad : F -> F;         (* np.tan(np.radians(x)) *)
  cos_rad : F -> F          (* np.cos(np.radians(x)) *)
}.

Declare Scope num_scope.
Delimit Scope num_scope with num.
Infix "+" := fadd : num_scope.
Infix "-" := fsub : num_scope.
Infix "*" := fmul : num_scope.
Notation "x <? y" := (fltb x y) : num_scope.
Notation "x <=? y" := (fleb x y) : num_scope.
Notation "x >? y" := (fltb y x) : num_scope.
Notation "x >=? y" := (fleb y x) : num_scope.

(** A decimal literal of the source.  At binary64, the correctly rounded
    quotient of two small integers is the double nearest to the decimal, which
    is what Python's parser produces ([lit_float_ok] below). *)
Definition lit {F : Type} `{Arith F} (q : Q) : F :=
  fdiv (ofZ (Qnum q)) (ofZ (Zpos (Qden q))).
Arguments lit {F _} q%_Q.

(** ** Exceptions

    [None] stands for a raised exception: [ZeroDivisionError] for [/] and [%],
    [ValueError] for [list.index].  Every division and modulo is read as
    raising on a zero divisor, as Python floats do; where an operand is a
    numpy scalar Python would return an infinity or a NaN instead, so this is
    the stricter reading. *)

Definition bind {A B : Type} (m : option A) (k : A -> option B) : option B :=
  match m with
  | Some a => k a
  | None => None
  end.

Notation "x <- m ;; k" := (bind m (fun x => k))
  (at level 61, m at next level, right associativity).

Section Simulation.

Context {F : Type} {AF : Arith F} {TF : Trig F}.
Local Open Scope num_scope.

Definition divide (x y : F) : option F :=
  if feqb y (ofZ 0) then None else Some (fdiv x y).

Definition modulo (x y : F) : option F :=
  if feqb y (ofZ 0) then None else Some (fmod x y).

(** Python's builtin [max(a, b)]: [b] replaces [a] only when [b > a]. *)
Definition pymax (a b : F) : F := if a <? b then b else a.

(** [np.clip(x, lo, hi)]: numpy's [minimum(maximum(x, lo), hi)], where a NaN
    first operand wins. *)
Definition isnan (x : F) : bool := negb (feqb x x).
Definition np_maximum (a b : F) : F := if isnan a || (a >? b) then a else b.
Definition np_minimum (a b : F) : F := if isnan a || (a <? b) then a else b.
Definition np_clip (x lo hi : F) : F := np_minimum (np_maximum x lo) hi.

(** ** Flight constants *)

Definition VS_CLIMB : F := lit 700.0.
Definition VS_DESCENT : F := lit (-600.0).
Definition PITCH_CLIMB : F := lit 7.0.
Definition PITCH_DESCENT : F := lit (-4.0).
Definition ALT_CAPTURE_BAND : F := lit 80.0.

(** ** Helpers *)

Definition smooth (v t r dt : F) : F := v + (t - v) * r * dt.

Definition update_airspeed (ias pitch target dt : F) : F :=
  smooth ias (target - pitch * lit 0.4) (lit 0.8) dt.

Definition compute_g (bank : F) : option F :=
  divide (lit 1.0) (pymax (lit 0.01) (cos_rad bank)).

(** ** State variables of the main loop *)

Inductive Mode : Type := CLIMB | DESCENT | ALT_CAPTURE | CRUISE | ROLLS.

Definition Mode_eqb (a b : Mode) : bool :=
  match a, b with
  | CLIMB, CLIMB | DESCENT, DESCENT | ALT_CAPTURE, ALT_CAPTURE
  | CRUISE, CRUISE | ROLLS, ROLLS => true
  | _, _ => false
  end.

Record Sim : Type := mkSim {
  running : bool;
  mode : Mode;
  prev_mode : Mode;
  ALTITUDE_CMD : F;
  IAS_CMD : F;
  bank_angle : Z;
  roll : F;
  pitch : F;
  heading : F;
  airspeed : F;
  altitude : F;
  vspeed : F;
  g_factor : F
}.

Definition set_running (b : bool) (s : Sim) : Sim :=
  mkSim b (mode s) (prev_mode s) (ALTITUDE_CMD s) (IAS_CMD s) (bank_angle s)
        (roll s) (pitch s) (heading s) (airspeed s) (altitude s) (vspeed s) (g_factor s).
Definition set_mode (m : Mode) (s : Sim) : Sim :=
  mkSim (running s) m (prev_mode s) (ALTITUDE_CMD s) (IAS_CMD s) (bank_angle s)
        (roll s) (pitch s) (heading s) (airspeed s) (altitude s) (vspeed s) (g_factor s).
Definition set_prev_mode (m : Mode) (s : Sim) : Sim :=
  mkSim (running s) (mode s) m (ALTITUDE_CMD s) (IAS_CMD s) (bank_angle s)
        (roll s) (pitch s) (heading s) (airspeed s) (altitude s) (vspeed s) (g_factor s).
Definition set_ALTITUDE_CMD (x : F) (s : Sim) : Sim :=
  mkSim (running s) (mode s) (prev_mode s) x (IAS_CMD s) (bank_angle s)
        (roll s) (pitch s) (heading s) (airspeed s) (altitude s) (vspeed s) (g_factor s).
Definition set_IAS_CMD (x : F) (s : Sim) : Sim :=
  mkSim (running s) (mode s) (prev_mode s) (ALTITUDE_CMD s) x (bank_angle s)
        (roll s) (pitch s) (heading s) (airspeed s) (altitude s) (vspeed s) (g_factor s).
Definition set_bank_angle (b : Z) (s : Sim) : Sim :=
  mkSim (running s) (mode s) (prev_mode s) (ALTITUDE_CMD s) (IAS_CMD s) b
        (roll s) (pitch s) (heading s) (airspeed s) (altitude s) (vspeed s) (g_factor s).
Definition set_roll (x : F) (s : Sim) : Sim :=
  mkSim (running s) (mode s) (prev_mode s) (ALTITUDE_CMD s) (IAS_CMD s) (bank_angle s)
        x (pitch s) (heading s) (airspeed s) (altitude s) (vspeed s) (g_factor s).
Definition set_pitch (x : F) (s : Sim) : Sim :=
  mkSim (running s) (mode s) (prev_mode s) (ALTITUDE_CMD s) (IAS_CMD s) (bank_angle s)
        (roll s) x (heading s) (airspeed s) (altitude s) (vspeed s) (g_factor s).
Definition set_heading (x : F) (s : Sim) : Sim :=
  mkSim (running s) (mode s) (prev_mode s) (ALTITUDE_CMD s) (IAS_CMD s) (bank_angle s)
        (roll s) (pitch s) x (airspeed s) (altitude s) (vspeed s) (g_factor s).
Definition set_airspeed (x : F) (s : Sim) : Sim :=
  mkSim (running s) (mode s) (prev_mode s) (ALTITUDE_CMD s) (IAS_CMD s) (bank_angle s)
        (roll s) (pitch s) (heading s) x (altitude s) (vspeed s) (g_factor s).
Definition set_altitude (x : F) (s : Sim) : Sim :=
  mkSim (running s) (mode s) (prev_mode s) (ALTITUDE_CMD s) (IAS_CMD s) (bank_angle s)
        (roll s) (pitch s) (heading s) (airspeed s) x (vspeed s) (g_factor s).
Definition set_vspeed (x : F) (s : Sim) : Sim :=
  mkSim (running s) (mode s) (prev_mode s) (ALTITUDE_CMD s) (IAS_CMD s) (bank_angle s)
        (roll s) (pitch s) (heading s) (airspeed s) (altitude s) x (g_factor s).
Definition set_g_factor (x : F) (s : Sim) : Sim :=
  mkSim (running s) (mode s) (prev_mode s) (ALTITUDE_CMD s) (IAS_CMD s) (bank_angle s)
        (roll s) (pitch s) (heading s) (airspeed s) (altitude s) (vspeed s) x.

(** The module-level initial values (lines 60-79). *)
Definition init : Sim :=
  {| running := true; mode := CRUISE; prev_mode := CRUISE;
     ALTITUDE_CMD := lit 1000.0; IAS_CMD := lit 100.0; bank_angle := 0;
     roll := lit 0.0; pitch := lit 0.0; heading := lit 0.0;
     airspeed := lit 100.0; altitude := lit 1000.0; vspeed := lit 0.0;
     g_factor := lit 1.0 |}.

(** ** Buttons and knobs *)

Definition SCREEN_WIDTH : Z := 1200.
Definition SCREEN_HEIGHT : Z := 800.
Definition PFD_WIDTH : Z := 800.
Definition PANEL_WIDTH : Z := SCREEN_WIDTH - PFD_WIDTH.

Record Rect : Type := mkRect { left : Z; top : Z; width : Z; height : Z }.

(** [pygame.Rect.collidepoint]: the right and bottom edges are outside. *)
Definition collidepoint (r : Rect) (pos : Z * Z) : bool :=
  ((left r <=? fst pos) && (fst pos <? left r + width r) &&
   (top r <=? snd pos) && (snd pos <? top r + height r))%Z.

(** Two rectangles that share no point. *)
Definition Rect_disjoint (a b : Rect) : bool :=
  ((left a + width a <=? left b) || (left b + width b <=? left a) ||
   (top a + height a <=? top b) || (top b + height b <=? top a))%Z.

Definition MODES : list Mode := [CLIMB; DESCENT; CRUISE; ROLLS].

Fixpoint enumerate_from {A : Type} (i : Z) (l : list A) : list (Z * A) :=
  match l with
  | [] => []
  | x :: l' => (i, x) :: enumerate_from (i + 1)%Z l'
  end.

(** The dict [buttons], in insertion order. *)
Definition buttons : list (Mode * Rect) :=
  map (fun im => (snd im, mkRect (PFD_WIDTH + 50) (100 + fst im * 80) 300 60)%Z)
      (enumerate_from 0 MODES).

Definition ALT_UP : Rect := mkRect (PFD_WIDTH + 100) 460 100 40.
Definition ALT_DN : Rect := mkRect (PFD_WIDTH + 210) 460 100 40.
Definition IAS_UP : Rect := mkRect (PFD_WIDTH + 120) 560 80 40.
Definition IAS_DN : Rect := mkRect (PFD_WIDTH + 210) 560 80 40.
Definition TURN_UP : Rect := mkRect (PFD_WIDTH + 100) 660 90 40.
Definition TURN_DN : Rect := mkRect (PFD_WIDTH + 210) 660 90 40.

Definition BANK_OPTIONS : list Z := [-65; -60; -45; -30; 0; 30; 45; 60; 65]%Z.

(** [list.index]: position of the first occurrence, [ValueError] if none. *)
Fixpoint index (l : list Z) (x : Z) : option nat :=
  match l with
  | [] => None
  | y :: l' => if (y =? x)%Z then Some O else i <- index l' x ;; Some (S i)
  end.

(** ** Events (lines 104-139) *)

Inductive Event : Type :=
  | QUIT
  | MOUSEBUTTONDOWN (pos : Z * Z)
  | OTHER.

Definition press_mode_buttons (pos : Z * Z) (s : Sim) : Sim :=
  fold_left
    (fun s mr => if collidepoint (snd mr) pos
                 then set_mode (fst mr) (set_prev_mode (mode s) s)
                 else s)
    buttons s.

Definition alt_knob (pos : Z * Z) (s : Sim) : Sim :=
  let s :=
    if collidepoint ALT_UP pos then
      let s := set_ALTITUDE_CMD (ALTITUDE_CMD s + lit 100) s in
      if Mode_eqb (mode s) CRUISE then set_mode CLIMB s else s
    else s in
  if collidepoint ALT_DN pos then
    let s := set_ALTITUDE_CMD (ALTITUDE_CMD s - lit 100) s in
    if Mode_eqb (mode s) CRUISE then set_mode DESCENT s else s
  else s.

Definition ias_knob (pos : Z * Z) (s : Sim) : Sim :=
  let s := if collidepoint IAS_UP pos then set_IAS_CMD (IAS_CMD s + lit 5) s else s in
  if collidepoint IAS_DN pos then set_IAS_CMD (IAS_CMD s - lit 5) s else s.

Definition turn_knob (pos : Z * Z) (s : Sim) : option Sim :=
  s <- (if collidepoint TURN_UP pos then
          idx <- index BANK_OPTIONS (bank_angle s) ;;
          Some (if (idx <? length BANK_OPTIONS - 1)%nat
                then set_bank_angle (nth (idx + 1) BANK_OPTIONS 0%Z) s
                else s)
        else Some s) ;;
  if collidepoint TURN_DN pos then
    idx <- index BANK_OPTIONS (bank_angle s) ;;
    Some (if (0 <? idx)%nat
          then set_bank_angle (nth (idx - 1) BANK_OPTIONS 0%Z) s
          else s)
  else Some s.

Definition handle_event (s : Sim) (e : Event) : option Sim :=
  match e with
  | QUIT => Some (set_running false s)
  | MOUSEBUTTONDOWN pos =>
      turn_knob pos (ias_knob pos (alt_knob pos (press_mode_buttons pos s)))
  | OTHER => Some s
  end.

Fixpoint handle_events (s : Sim) (es : list Event) : option Sim :=
  match es with
  | [] => Some s
  | e :: es' => s' <- handle_event s e ;; handle_events s' es'
  end.

(** ** Flight logic (lines 144-191) *)

Definition flight_logic (s : Sim) (dt : F) : option Sim :=
  match mode s with
  | CLIMB =>
      let s := set_roll (smooth (roll s) (lit 0.0) (lit 2.0) dt) s in
      let s := set_pitch (smooth (pitch s) PITCH_CLIMB (lit 1.5) dt) s in
      let s := set_vspeed (smooth (vspeed s) VS_CLIMB (lit 1.5) dt) s in
      q <- divide (vspeed s) (lit 60) ;;
      let s := set_altitude (altitude s + q * dt) s in
      let s := set_airspeed
                 (update_airspeed (airspeed s) (pitch s) (IAS_CMD s - lit 10) dt) s in
      Some (if altitude s >=? ALTITUDE_CMD s - ALT_CAPTURE_BAND
            then set_mode ALT_CAPTURE s else s)
  | DESCENT =>
      let s := set_roll (smooth (roll s) (lit 0.0) (lit 2.0) dt) s in
      let s := set_pitch (smooth (pitch s) PITCH_DESCENT (lit 1.5) dt) s in
      let s := set_vspeed (smooth (vspeed s) VS_DESCENT (lit 1.5) dt) s in
      q <- divide (vspeed s) (lit 60) ;;
      let s := set_altitude (altitude s + q * dt) s in
      let s := set_airspeed
                 (update_airspeed (airspeed s) (pitch s) (IAS_CMD s + lit 5) dt) s in
      Some (if altitude s <=? ALTITUDE_CMD s + ALT_CAPTURE_BAND
            then set_mode ALT_CAPTURE s else s)
  | ALT_CAPTURE =>
      let s := set_roll (smooth (roll s) (lit 0.0) (lit 2.5) dt) s in
      let error := ALTITUDE_CMD s - altitude s in
      let vs_cmd := np_clip (error * lit 5.0) (lit (-500)) (lit 500) in
      let s := set_vspeed (smooth (vspeed s) vs_cmd (lit 2.0) dt) s in
      p <- divide vs_cmd (lit 150.0) ;;
      let s := set_pitch (smooth (pitch s) p (lit 2.0) dt) s in
      q <- divide (vspeed s) (lit 25) ;;
      let s := set_altitude (altitude s + q * dt) s in
      let s := set_airspeed (update_airspeed (airspeed s) (pitch s) (IAS_CMD s) dt) s in
      Some (if fabs error <? lit 5
            then set_mode CRUISE
                   (set_vspeed (lit 0.0)
                      (set_pitch (lit 0.0)
                         (set_airspeed (IAS_CMD s)
                            (set_altitude (ALTITUDE_CMD s) s))))
            else s)
  | CRUISE =>
      let s := set_roll (smooth (roll s) (lit 0.0) (lit 3.0) dt) s in
      let s := set_pitch (smooth (pitch s) (lit 0.0) (lit 3.0) dt) s in
      let s := set_vspeed (smooth (vspeed s) (lit 0.0) (lit 3.0) dt) s in
      Some (set_airspeed (smooth (airspeed s) (IAS_CMD s) (lit 1.2) dt) s)
  | ROLLS =>
      let s := set_roll (smooth (roll s) (ofZ (bank_angle s)) (lit 1.5) dt) s in
      g_target <- compute_g (fabs (roll s)) ;;
      let s := set_g_factor (smooth (g_factor s) g_target (lit 3.0) dt) s in
      let s := set_pitch
                 (smooth (pitch s) (lit 3 + (g_factor s - lit 1) * lit 3) (lit 1.5) dt) s in
      Some (set_airspeed
              (update_airspeed (airspeed s) (pitch s) (IAS_CMD s - lit 5) dt) s)
  end.

Definition g_decay (s : Sim) (dt : F) : Sim :=
  if negb (Mode_eqb (mode s) ROLLS)
  then set_g_factor (smooth (g_factor s) (lit 1.0) (lit 2.5) dt) s
  else s.

(** ** Heading dynamics (lines 196-198) *)

Definition heading_dynamics (s : Sim) (dt : F) : option Sim :=
  if (fabs (roll s) >? lit 1.0) && (airspeed s >? lit 30) then
    turn_rate <- divide (lit 1091 * tan_rad (roll s)) (pymax (airspeed s) (lit 1)) ;;
    h <- modulo (heading s + turn_rate * dt) (lit 360) ;;
    Some (set_heading h s)
  else Some s.

(** One simulation tick: everything the loop body does to the state after the
    events are drained. *)
Definition tick (s : Sim) (dt : F) : option Sim :=
  s <- flight_logic s dt ;;
  heading_dynamics (g_decay s dt) dt.

(** One iteration of the main loop. *)
Definition frame (s : Sim) (dt : F) (es : list Event) : option Sim :=
  s <- handle_events s es ;;
  tick s dt.

(** [n] ticks at a fixed [dt], without events. *)
Fixpoint run (n : nat) (s : Sim) (dt : F) : option Sim :=
  match n with
  | O => Some s
  | S n' => s' <- tick s dt ;; run n' s' dt
  end.

(** The sequence [v_0 = v], [v_(n+1) = smooth(v_n, t, r, dt)]. *)
Fixpoint smooth_seq (v t r dt : F) (n : nat) : F :=
  match n with
  | O => v
  | S n' => smooth (smooth_seq v t r dt n') t r dt
  end.

(** Whether [p] holds of the state after each of the next [n] ticks. *)
Fixpoint all_ticks (n : nat) (p : Sim -> bool) (s : Sim) (dt : F) : bool :=
  match n with
  | O => true
  | S n' =>
      match tick s dt with
      | Some s' => p s' && all_ticks n' p s' dt
      | None => false
      end
  end.

(** The tests of the climb and capture branches, on a state. *)
Definition climbing_below_band (s : Sim) : bool :=
  Mode_eqb (mode s) CLIMB && negb (altitude s >=? ALTITUDE_CMD s - ALT_CAPTURE_BAND).
Definition capturing_outside (s : Sim) : bool :=
  Mode_eqb (mode s) ALT_CAPTURE && negb (fabs (ALTITUDE_CMD s - altitude s) <? lit 5).

End Simulation.

Arguments Sim F : clear implicits.

(** ** [src/pfd/pfd.py]: aircraft state and display layout *)

Module Pfd.
Section Layout.

Context {F : Type} {AF : Arith F}.
Local Open Scope num_scope.

Record AircraftState : Type := mkAircraftState {
  roll : F;
  pitch : F;
  airspeed : F;
  airspeed_cmd : F;
  altitude : F;
  altitude_cmd : F;
  vspeed : F;
  heading : F;
  heading_cmd : option F;
  course : F
}.

Inductive InstrumentClass : Type :=
  | ArtificalHorizon
  | AirspeedIndicator
  | AirspeedIndicatorLittle
  | AltitudeIndicator
  | AltitudeIndicatorLittle
  | VerticalSpeedIndicator
  | VerticalSpeedIndicatoLittle
  | HeadingIndicator.

(** Modelled from the spec: the instrument classes ([airspeed.py],
    [altimeter.py], [heading.py], ...) are other modules of the package. An
    instrument is what [PrimaryFlightDisplay] gives it: its class, the [size]
    and [position] (centre point) keyword arguments it was built with, and the
    values last handed to its [update], which stores them. *)
Record Instrument : Type := mkInstrument {
  cls : InstrumentClass;
  size : F;
  position : option (F * F);
  shown : list (option F)
}.

(** Right edge of an altitude indicator's background rectangle, computed by
    the instrument's own module. *)
Variable background_rect_right : Instrument -> F.

(** [pygame.Rect.centerx] and [centery] of the surface rectangle. *)
Definition centerx (r : Rect) : Z := left r + Z.quot (width r) 2.
Definition centery (r : Rect) : Z := top r + Z.quot (height r) 2.

Record PrimaryFlightDisplay : Type := mkPFD {
  resolution : Z * Z;
  surface_rect : Rect;
  max_fps : option Z;
  fps : F;
  pfd_size : Z;
  unit : F;
  artifical_horizon : Instrument;
  airspeed_indicator : Instrument;
  altitude_indicator : Instrument;
  vspeed_indicator : Instrument;
  heading_indicator : Instrument;
  masked : bool;
  little : bool;
  state : option AircraftState;
  real_time : option F;
  sim_time : option F
}.

(** [PrimaryFlightDisplay.__init__(resolution, max_fps=..., masked=...,
    little=...)].  The divisions are by nonzero literals. *)
Definition new (resolution : Z * Z) (max_fps : option Z) (masked little : bool)
  : PrimaryFlightDisplay :=
  let surface_rect := mkRect 0 0 (fst resolution) (snd resolution) in
  let size := Z.min (fst resolution) (snd resolution) in
  let unit := fdiv (ofZ size) (ofZ 16) in
  let artifical_horizon :=
    mkInstrument ArtificalHorizon (fdiv (ofZ size) (ofZ 2)) None [] in
  let airspeed_indicator :=
    mkInstrument AirspeedIndicator (fdiv (ofZ size) (ofZ 2))
      (Some (ofZ (centerx surface_rect) - unit * ofZ 5, ofZ (centery surface_rect))) [] in
  let altitude_indicator :=
    mkInstrument AltitudeIndicator (fdiv (ofZ size) (ofZ 2))
      (Some (ofZ (centerx surface_rect) + unit * ofZ 5, ofZ (centery surface_rect))) [] in
  let vspeed_indicator :=
    mkInstrument VerticalSpeedIndicator (fdiv (ofZ size) (lit 2.5))
      (Some (background_rect_right altitude_indicator + fdiv (ofZ size) (ofZ 100),
             ofZ (centery surface_rect))) [] in
  let heading_indicator :=
    mkInstrument HeadingIndicator (fdiv (ofZ size) (ofZ 2))
      (Some (ofZ (centerx surface_rect), ofZ (centery surface_rect) + unit * ofZ 5)) [] in
  let airspeed_indicator :=
    if little then
      mkInstrument AirspeedIndicatorLittle (fdiv (ofZ size) (ofZ 2))
        (Some (ofZ (centerx surface_rect) - unit * ofZ 5, ofZ (centery surface_rect))) []
    else airspeed_indicator in
  let altitude_indicator :=
    if little then
      mkInstrument AltitudeIndicatorLittle (fdiv (ofZ size) (ofZ 2))
        (Some (ofZ (centerx surface_rect) + unit * ofZ 5, ofZ (centery surface_rect))) []
    else altitude_indicator in
  let vspeed_indicator :=
    if little then
      mkInstrument VerticalSpeedIndicatoLittle (fdiv (ofZ size) (lit 2.5))
        (Some (background_rect_right altitude_indicator + fdiv (ofZ size) (ofZ 100),
               ofZ (centery surface_rect))) []
    else vspeed_indicator in
  {| resolution := resolution; surface_rect := surface_rect;
     max_fps := max_fps; fps := lit 0.0;
     pfd_size := size; unit := unit;
     artifical_horizon := artifical_horizon;
     airspeed_indicator := airspeed_indicator;
     altitude_indicator := altitude_indicator;
     vspeed_indicator := vspeed_indicator;
     heading_indicator := heading_indicator;
     masked := masked; little := little;
     state := None; real_time := None; sim_time := None |}.

(** Modelled from the spec: an instrument's [update(...)] returns nothing and
    stores the values it is given. *)
Definition instrument_update (i : Instrument) (vals : list (option F)) : Instrument :=
  mkInstrument (cls i) (size i) (position i) vals.

(** [PrimaryFlightDisplay.update(state, real_time, sim_time)]. *)
Definition update (p : PrimaryFlightDisplay) (st : AircraftState)
  (real_time sim_time : option F) : PrimaryFlightDisplay :=
  {| resolution := resolution p; surface_rect := surface_rect p;
     max_fps := max_fps p; fps := fps p;
     pfd_size := pfd_size p; unit := unit p;
     artifical_horizon :=
       instrument_update (artifical_horizon p) [Some (roll st); Some (pitch st)];
     airspeed_indicator :=
       instrument_update (airspeed_indicator p)
         [Some (airspeed st); Some (airspeed_cmd st)];
     altitude_indicator :=
       instrument_update (altitude_indicator p)
         [Some (altitude st); Some (altitude_cmd st)];
     vspeed_indicator := instrument_update (vspeed_indicator p) [Some (vspeed st)];
     heading_indicator :=
       instrument_update (heading_indicator p)
         [Some (heading st); Some (course st); heading_cmd st];
     masked := masked p; little := little p;
     state := Some st; real_time := real_time; sim_time := sim_time |}.

(** [PrimaryFlightDisplay.tick()]: the clock's measured frame rate [rate] is
    stored in [fps]. *)
Definition tick (p : PrimaryFlightDisplay) (rate : F) : PrimaryFlightDisplay :=
  {| resolution := resolution p; surface_rect := surface_rect p;
     max_fps := max_fps p; fps := rate;
     pfd_size := pfd_size p; unit := unit p;
     artifical_horizon := artifical_horizon p;
     airspeed_indicator := airspeed_indicator p;
     altitude_indicator := altitude_indicator p;
     vspeed_indicator := vspeed_indicator p;
     heading_indicator := heading_indicator p;
     masked := masked p; little := little p;
     state := state p; real_time := real_time p; sim_time := sim_time p |}.

(** [draw] and [get_surface] only render and read; they assign no attribute. *)
Definition draw (p : PrimaryFlightDisplay) : PrimaryFlightDisplay := p.

(** What a display can go through after construction. *)
Inductive Call : Type :=
  | CallTick (rate : F)
  | CallUpdate (st : AircraftState) (real_time sim_time : option F)
  | CallDraw.

Definition call (p : PrimaryFlightDisplay) (c : Call) : PrimaryFlightDisplay :=
  match c with
  | CallTick rate => tick p rate
  | CallUpdate st rt stime => update p st rt stime
  | CallDraw => draw p
  end.

End Layout.
Arguments AircraftState F : clear implicits.
Arguments Instrument F : clear implicits.
Arguments PrimaryFlightDisplay F : clear implicits.
Arguments Call F : clear implicits.
End Pfd.

(** The snapshot handed to the display each frame (lines 203-214). *)
Definition aircraft_state {F : Type} (s : Sim F) : Pfd.AircraftState F :=
  {| Pfd.pitch := pitch s;
     Pfd.roll := roll s;
     Pfd.airspeed := airspeed s;
     Pfd.airspeed_cmd := IAS_CMD s;
     Pfd.vspeed := vspeed s;
     Pfd.altitude := altitude s;
     Pfd.altitude_cmd := ALTITUDE_CMD s;
     Pfd.heading := heading s;
     Pfd.heading_cmd := None;
     Pfd.course := heading s |}.

(** ** The main loop and the side panel (lines 96-99, 237-283) *)

Section MainLoop.

Context {F : Type} {AF : Arith F} {TF : Trig F}.
Local Open Scope num_scope.

(** [while running:], one frame per pair of a frame time and the events
    drained in that frame. *)
Fixpoint main_loop (s : Sim F) (frames : list (F * list Event)) : option (Sim F) :=
  match frames with
  | [] => Some s
  | f :: frames' =>
      if running s
      then s' <- frame s (fst f) (snd f) ;; main_loop s' frames'
      else Some s
  end.

(** The variables the flight logic integrates, and the ones the panel sets. *)
Definition flight_vars (s : Sim F) : F * F * F * F * F * F * F :=
  (roll s, pitch s, heading s, airspeed s, altitude s, vspeed s, g_factor s).
Definition setpoints (s : Sim F) : F * F * Z :=
  (ALTITUDE_CMD s, IAS_CMD s, bank_angle s).

(** Every rectangle a click is tested against, in the order of the tests. *)
Definition controls : list Rect :=
  map snd buttons ++ [ALT_UP; ALT_DN; IAS_UP; IAS_DN; TURN_UP; TURN_DN].

(** Fill colour of the button of mode [m] (line 239). *)
Definition button_color (m : Mode) (current : Mode) : Z * Z * Z :=
  if Mode_eqb m current then (255, 180, 0) else (80, 80, 80).

Definition button_colors (current : Mode) : list (Mode * (Z * Z * Z)) :=
  map (fun mr => (fst mr, button_color (fst mr) current)) buttons.

(** The modes whose button is drawn in the highlight colour. *)
Definition highlighted (current : Mode) : list Mode :=
  map fst
    (filter (fun mc => let '(r, g, b) := snd mc in
                       (r =? 255)%Z && (g =? 180)%Z && (b =? 0)%Z)
       (button_colors current)).

End MainLoop.

(** ** Binary64 instance *)

Module Binary64.

(** int -> float. Exact below 2^53 and rounded to nearest below 2^63, which
    covers the literals, bank angles and pixel sizes the program converts. *)
Definition of_int (z : Z) : float :=
  match z with
  | Z0 => 0%float
  | Zpos _ => of_uint63 (Uint63.of_Z z)
  | Zneg p => (- of_uint63 (Uint63.of_Z (Zpos p)))%float
  end.

(** C's [fmod]: the exact remainder of the truncated quotient, with the sign
    of [x]. Both operands are scaled to the smaller exponent and the remainder
    is taken on the integer mantissas. *)
Definition c_fmod (x y : float) : float :=
  match Prim2SF x, Prim2SF y with
  | S754_nan, _ | _, S754_nan => nan
  | S754_infinity _, _ => nan
  | _, S754_zero _ => nan
  | _, S754_infinity _ => x
  | S754_zero _, _ => x
  | S754_finite sx mx ex, S754_finite _ my ey =>
      let e := Z.min ex ey in
      let r := Z.rem (Zpos mx * 2 ^ (ex - e)) (Zpos my * 2 ^ (ey - e)) in
      let a := Z.ldexp (of_uint63 (Uint63.of_Z r)) e in
      if sx then (- a)%float else a
  end.

(** [float.__mod__] of CPython and numpy's [remainder]: [fmod], then the
    result takes the sign of the divisor. *)
Definition py_mod (x y : float) : float :=
  let m := c_fmod x y in
  if (m =? 0)%float then (if (y <? 0)%float then (-0)%float else 0%float)
  else if Bool.eqb (y <? 0)%float (m <? 0)%float then m
  else (m + y)%float.

End Binary64.

#[export] Instance FloatArith : Arith float := {|
  ofZ := Binary64.of_int;
  fadd := PrimFloat.add;
  fsub := PrimFloat.sub;
  fmul := PrimFloat.mul;
  fdiv := PrimFloat.div;
  fmod := Binary64.py_mod;
  fabs := PrimFloat.abs;
  feqb := PrimFloat.eqb;
  fltb := PrimFloat.ltb;
  fleb := PrimFloat.leb
|}.

(** ** Exact instance *)

#[export] Instance ExactArith : Arith Q := {|
  ofZ := inject_Z;
  fadd := Qplus;
  fsub := Qminus;
  fmul := Qmult;
  fdiv := Qdiv;
  fmod := fun x y => (x - y * inject_Z (Qfloor (x / y)))%Q;
  fabs := Qabs;
  feqb := Qeq_bool;
  fltb := fun x y => negb (Qle_bool y x);
  fleb := Qle_bool
|}.

(** A tangent and cosine for the examples: the C library's values at the two
    arguments the examples reach ([tan] of -30 degrees, [cos] of 30 degrees),
    and the values at 0 degrees elsewhere. *)
Definition sample_tan (x : float) : float :=
  if (x =? -30)%float then (-0.5773502691896257)%float else 0%float.
Definition sample_cos (x : float) : float :=
  if (x =? 30)%float then 0.8660254037844387%float else 1%float.
Definition SampleTrig : Trig float := {| tan_rad := sample_tan; cos_rad := sample_cos |}.

(** A tangent and a cosine that return [t] and [c] wherever they are called. *)
Definition ConstantTrig (t c : float) : Trig float :=
  {| tan_rad := fun _ => t; cos_rad := fun _ => c |}.

(** ** Sample inputs *)

(** The frame time of a 60 Hz loop in exact seconds, and the 16 ms the clock
    reports ([clock.tick(60) / 1000]). *)
Definition dt60 : float := fdiv (lit 1) (lit 60).
Definition dt16 : float := fdiv (ofZ 16) (ofZ 1000).

(** A climb from 1000 ft to a commanded 2000 ft, all else as at start-up. *)
Definition climb_start : Sim float :=
  set_mode CLIMB (set_ALTITUDE_CMD (lit 2000.0) init).

(** A steady left bank of 30 degrees at 100 kt. *)
Definition banked_left : Sim float :=
  set_roll (lit (-30.0)) (set_bank_angle (-30) (set_mode ROLLS init)).

(** The same bank with the heading a tenth of a degree east of north. *)
Definition banked_left_near_north : Sim float :=
  set_heading 0.10084717970835695%float banked_left.

(** The same climb in exact arithmetic, with the tangent and cosine of a
    wings-level aircraft. *)
Definition LevelTrig : Trig Q :=
  {| tan_rad := fun _ => 0%Q; cos_rad := fun _ => 1%Q |}.
Definition climb_start_exact : Sim Q :=
  set_mode CLIMB (set_ALTITUDE_CMD (lit 2000.0) init).

(** A 20 degree roll on the way to a selected 30 degree bank, in exact
    arithmetic. *)
Definition banking_exact : Sim Q :=
  set_roll (lit 20) (set_bank_angle 30 (set_mode ROLLS init)).

(** Whether a tick from [s] leaves the heading at exactly 360.0. *)
Definition wraps_to_360 (TF : Trig float) (s : Sim float) (dt : float) : bool :=
  match tick s dt with
  | Some s' => feqb (heading s') (lit 360)
  | None => false
  end.

(** * Properties *)

(** ** What a tick does, for every arithmetic *)

Ltac bind_inv H :=
  repeat match type of H with
  | bind ?m _ = Some _ =>
      let E := fresh "E" in
      destruct m eqn:E; cbn [bind] in H; [ | discriminate H ]
  end.

Section TickFacts.

Context {F : Type} {AF : Arith F} {TF : Trig F}.
Local Open Scope num_scope.

Lemma divide_Some (x y q : F) :
  divide x y = Some q -> feqb y (ofZ 0) = false /\ q = fdiv x y.
Proof.
  unfold divide. destruct (feqb y (ofZ 0)); [discriminate|].
  intros H; injection H as <-. split; reflexivity.
Qed.

Lemma modulo_Some (x y q : F) :
  modulo x y = Some q -> feqb y (ofZ 0) = false /\ q = fmod x y.
Proof.
  unfold modulo. destruct (feqb y (ofZ 0)); [discriminate|].
  intros H; injection H as <-. split; reflexivity.
Qed.

Lemma Mode_eqb_eq (a b : Mode) : Mode_eqb a b = true <-> a = b.
Proof. destruct a, b; simpl; split; (reflexivity || discriminate). Qed.

(** The flight logic touches neither the heading nor the setpoints. *)
Lemma flight_logic_frame (s s1 : Sim F) (dt : F) :
  flight_logic s dt = Some s1 ->
  heading s1 = heading s /\ running s1 = running s /\
  prev_mode s1 = prev_mode s /\ ALTITUDE_CMD s1 = ALTITUDE_CMD s /\
  IAS_CMD s1 = IAS_CMD s /\ bank_angle s1 = bank_angle s.
Proof.
  unfold flight_logic. intros H.
  destruct (mode s); cbn in H; bind_inv H; injection H as <-;
    repeat match goal with |- context [if ?b then _ else _] => destruct b end;
    cbn; repeat split; reflexivity.
Qed.

(** Mode after the flight logic, per starting mode. The climb and descent
    tests read the altitude just integrated; the capture test reads the error
    taken before the integration. *)
Lemma flight_logic_mode (s s1 : Sim F) (dt : F) :
  flight_logic s dt = Some s1 ->
  mode s1 =
  match mode s with
  | CLIMB =>
      if altitude s1 >=? ALTITUDE_CMD s - ALT_CAPTURE_BAND then ALT_CAPTURE else CLIMB
  | DESCENT =>
      if altitude s1 <=? ALTITUDE_CMD s + ALT_CAPTURE_BAND then ALT_CAPTURE else DESCENT
  | ALT_CAPTURE =>
      if fabs (ALTITUDE_CMD s - altitude s) <? lit 5 then CRUISE else ALT_CAPTURE
  | CRUISE => CRUISE
  | ROLLS => ROLLS
  end.
Proof.
  unfold flight_logic. intros H.
  destruct (mode s) eqn:M; cbn in H; bind_inv H; injection H as <-; cbn;
    repeat match goal with |- context [if ?b then _ else _] => destruct b eqn:? end;
    cbn in *; try congruence.
Qed.

(** The capture snap. *)
Lemma flight_logic_capture (s s1 : Sim F) (dt : F) :
  flight_logic s dt = Some s1 ->
  mode s = ALT_CAPTURE ->
  (fabs (ALTITUDE_CMD s - altitude s) <? lit 5) = true ->
  mode s1 = CRUISE /\ altitude s1 = ALTITUDE_CMD s /\ airspeed s1 = IAS_CMD s /\
  pitch s1 = lit 0.0 /\ vspeed s1 = lit 0.0.
Proof.
  unfold flight_logic. intros H M C. rewrite M in H. cbn in H. bind_inv H.
  rewrite C in H. injection H as <-. cbn. repeat split; reflexivity.
Qed.

Lemma g_decay_frame (s : Sim F) (dt : F) :
  mode (g_decay s dt) = mode s /\ roll (g_decay s dt) = roll s /\
  airspeed (g_decay s dt) = airspeed s /\ heading (g_decay s dt) = heading s /\
  altitude (g_decay s dt) = altitude s /\ vspeed (g_decay s dt) = vspeed s /\
  pitch (g_decay s dt) = pitch s /\ prev_mode (g_decay s dt) = prev_mode s /\
  ALTITUDE_CMD (g_decay s dt) = ALTITUDE_CMD s /\ IAS_CMD (g_decay s dt) = IAS_CMD s.
Proof.
  unfold g_decay. destruct (negb (Mode_eqb (mode s) ROLLS)); cbn; repeat split; reflexivity.
Qed.

Lemma heading_dynamics_frame (s s' : Sim F) (dt : F) :
  heading_dynamics s dt = Some s' ->
  mode s' = mode s /\ roll s' = roll s /\ airspeed s' = airspeed s /\
  altitude s' = altitude s /\ vspeed s' = vspeed s /\ pitch s' = pitch s /\
  g_factor s' = g_factor s /\ prev_mode s' = prev_mode s /\
  ALTITUDE_CMD s' = ALTITUDE_CMD s /\ IAS_CMD s' = IAS_CMD s.
Proof.
  unfold heading_dynamics. intros H.
  destruct (_ && _); bind_inv H; injection H as <-; cbn; repeat split; reflexivity.
Qed.

Lemma heading_dynamics_heading (s s' : Sim F) (dt : F) :
  heading_dynamics s dt = Some s' ->
  heading s' =
  if (fabs (roll s) >? lit 1.0) && (airspeed s >? lit 30)
  then fmod (heading s +
             fdiv (lit 1091 * tan_rad (roll s)) (pymax (airspeed s) (lit 1)) * dt)
            (lit 360)
  else heading s.
Proof.
  unfold heading_dynamics. intros H.
  destruct (_ && _); bind_inv H; injection H as <-; cbn; [|reflexivity].
  apply divide_Some in E as [_ ->]. apply modulo_Some in E0 as [_ ->]. reflexivity.
Qed.

(** Splitting a tick into its three stages. *)
Lemma tick_stages (s s' : Sim F) (dt : F) :
  tick s dt = Some s' ->
  exists s1, flight_logic s dt = Some s1 /\
             heading_dynamics (g_decay s1 dt) dt = Some s'.
Proof.
  unfold tick. intros H. bind_inv H. eexists; split; [reflexivity | exact H].
Qed.

Lemma tick_mode (s s' : Sim F) (dt : F) :
  tick s dt = Some s' ->
  mode s' =
  match mode s with
  | CLIMB =>
      if altitude s' >=? ALTITUDE_CMD s - ALT_CAPTURE_BAND then ALT_CAPTURE else CLIMB
  | DESCENT =>
      if altitude s' <=? ALTITUDE_CMD s + ALT_CAPTURE_BAND then ALT_CAPTURE else DESCENT
  | ALT_CAPTURE =>
      if fabs (ALTITUDE_CMD s - altitude s) <? lit 5 then CRUISE else ALT_CAPTURE
  | CRUISE => CRUISE
  | ROLLS => ROLLS
  end.
Proof.
  intros H. apply tick_stages in H as (s1 & H1 & H2).
  apply heading_dynamics_frame in H2 as (Hm & _ & _ & Ha & _).
  pose proof (g_decay_frame s1 dt) as (Gm & _ & _ & _ & Ga & _).
  rewrite Hm, Gm, Ha, Ga. apply flight_logic_mode with (dt := dt). exact H1.
Qed.

End TickFacts.

Section ControllerFacts.

Context {F : Type} {AF : Arith F} {TF : Trig F}.
Local Open Scope num_scope.

(** The heading after a tick, from the roll and airspeed the tick produced. *)
Lemma heading_update_generic (s s' : Sim F) (dt : F) :
  tick s dt = Some s' ->
  heading s' =
  if (fabs (roll s') >? lit 1.0) && (airspeed s' >? lit 30)
  then fmod (heading s +
             fdiv (lit 1091 * tan_rad (roll s')) (pymax (airspeed s') (lit 1)) * dt)
            (lit 360)
  else heading s.
Proof.
  intros H. apply tick_stages in H as (s1 & H1 & H2).
  pose proof (heading_dynamics_frame _ _ _ H2) as (_ & Hr & Ha & _).
  pose proof (g_decay_frame s1 dt) as (_ & Gr & Ga & Gh & _).
  apply flight_logic_frame in H1 as (Hh & _).
  rewrite (heading_dynamics_heading _ _ _ H2), Hr, Ha, Gr, Ga, Gh, Hh.
  reflexivity.
Qed.

(** Update of the g-load on a tick, whatever the arithmetic. *)
Lemma g_factor_update (s s' : Sim F) (dt : F) :
  tick s dt = Some s' ->
  (mode s = ROLLS ->
   feqb (pymax (lit 0.01) (cos_rad (fabs (roll s')))) (ofZ 0) = false /\
   g_factor s' =
   smooth (g_factor s)
          (fdiv (lit 1.0) (pymax (lit 0.01) (cos_rad (fabs (roll s')))))
          (lit 3.0) dt) /\
  (mode s <> ROLLS ->
   g_factor s' = smooth (g_factor s) (lit 1.0) (lit 2.5) dt).
Proof.
  intros H. apply tick_stages in H as (s1 & H1 & H2).
  apply heading_dynamics_frame in H2 as (_ & Hr & _ & _ & _ & _ & Hg & _).
  pose proof (g_decay_frame s1 dt) as (_ & Gr & _).
  rewrite Hg, Hr, Gr. clear Hg Hr Gr s'.
  unfold flight_logic in H1. split; intros M.
  - rewrite M in H1. cbn in H1. bind_inv H1. injection H1 as <-.
    unfold compute_g in E. apply divide_Some in E as [Z ->].
    unfold g_decay. cbn. rewrite M. cbn. split; [exact Z | reflexivity].
  - destruct (mode s) eqn:M'; try congruence; cbn in H1; bind_inv H1;
      injection H1 as <-;
      try match goal with |- context [g_decay (if ?b then _ else _)] => destruct b end;
      unfold g_decay; cbn; rewrite ?M'; cbn; reflexivity.
Qed.

(** Mode changes caused by a click. *)
Lemma press_mode_buttons_fold (pos : Z * Z) (l : list (Mode * Rect)) (s : Sim F) :
  let s' := fold_left
              (fun s mr => if collidepoint (snd mr) pos
                           then set_mode (fst mr) (set_prev_mode (mode s) s)
                           else s) l s in
  (mode s' = mode s \/ In (mode s') (map fst l)) /\
  ALTITUDE_CMD s' = ALTITUDE_CMD s /\ IAS_CMD s' = IAS_CMD s /\
  bank_angle s' = bank_angle s /\
  (Forall (fun mr => collidepoint (snd mr) pos = false) l -> s' = s).
Proof.
  revert s. induction l as [|mr l IH]; intros s; cbn.
  - repeat split; auto.
  - destruct (collidepoint (snd mr) pos) eqn:C.
    + specialize (IH (set_mode (fst mr) (set_prev_mode (mode s) s))).
      cbn in IH. destruct IH as (Hm & Ha & Hi & Hb & _).
      repeat split; auto.
      * right. destruct Hm as [-> | Hm]; [left; reflexivity | right; exact Hm].
      * intros Hall. inversion Hall; congruence.
    + specialize (IH s). cbn in IH. destruct IH as (Hm & Ha & Hi & Hb & Hs).
      repeat split; auto.
      * destruct Hm as [Hm | Hm]; [left; exact Hm | right; right; exact Hm].
      * intros Hall. inversion Hall; auto.
Qed.

Lemma buttons_modes : map fst buttons = [CLIMB; DESCENT; CRUISE; ROLLS].
Proof. reflexivity. Qed.

Lemma alt_knob_frame (pos : Z * Z) (s : Sim F) :
  prev_mode (alt_knob pos s) = prev_mode s /\
  (mode (alt_knob pos s) = ALT_CAPTURE -> mode s = ALT_CAPTURE).
Proof.
  unfold alt_knob.
  destruct (collidepoint ALT_UP pos), (collidepoint ALT_DN pos), (mode s) eqn:M;
    repeat (progress cbn || rewrite M); split; (reflexivity || congruence).
Qed.

Lemma ias_knob_frame (pos : Z * Z) (s : Sim F) :
  mode (ias_knob pos s) = mode s /\ prev_mode (ias_knob pos s) = prev_mode s /\
  ALTITUDE_CMD (ias_knob pos s) = ALTITUDE_CMD s.
Proof.
  unfold ias_knob.
  destruct (collidepoint IAS_UP pos), (collidepoint IAS_DN pos); cbn;
    repeat split; reflexivity.
Qed.

Lemma turn_knob_frame (pos : Z * Z) (s s' : Sim F) :
  turn_knob pos s = Some s' ->
  mode s' = mode s /\ prev_mode s' = prev_mode s /\
  ALTITUDE_CMD s' = ALTITUDE_CMD s.
Proof.
  unfold turn_knob. intros H. bind_inv H.
  destruct (collidepoint TURN_UP pos); bind_inv E; injection E as <-;
    (destruct (collidepoint TURN_DN pos); bind_inv H; injection H as <-);
    repeat match goal with |- context [if ?b then _ else _] => destruct b end;
    cbn; repeat split; reflexivity.
Qed.

(** C10. The mode becomes [ALT_CAPTURE] only inside a tick, from [CLIMB] when
    the altitude just integrated is at least [ALTITUDE_CMD - 80] or from
    [DESCENT] when it is at most [ALTITUDE_CMD + 80]; no event sets it (the
    buttons offer [CLIMB], [DESCENT], [CRUISE] and [ROLLS] only), and the
    simulation starts in [CRUISE]. *)
Theorem alt_capture_only_internal :
  (forall (s s' : Sim F) (e : Event),
     handle_event s e = Some s' -> mode s' = ALT_CAPTURE -> mode s = ALT_CAPTURE) /\
  (forall (s s' : Sim F) (dt : F),
     tick s dt = Some s' -> mode s' = ALT_CAPTURE -> mode s <> ALT_CAPTURE ->
     (mode s = CLIMB /\
      (altitude s' >=? ALTITUDE_CMD s - ALT_CAPTURE_BAND) = true) \/
     (mode s = DESCENT /\
      (altitude s' <=? ALTITUDE_CMD s + ALT_CAPTURE_BAND) = true)) /\
  (forall (s s' : Sim F) (dt : F),
     tick s dt = Some s' ->
     (mode s = CLIMB ->
      (altitude s' >=? ALTITUDE_CMD s - ALT_CAPTURE_BAND) = true ->
      mode s' = ALT_CAPTURE) /\
     (mode s = DESCENT ->
      (altitude s' <=? ALTITUDE_CMD s + ALT_CAPTURE_BAND) = true ->
      mode s' = ALT_CAPTURE)) /\
  mode (init (F := F)) = CRUISE /\
  map fst buttons = [CLIMB; DESCENT; CRUISE; ROLLS] /\
  ALT_CAPTURE_BAND = lit 80.0.
Proof.
  split; [|split; [|split; [|repeat split]]].
  - intros s s' e H M. destruct e; unfold handle_event in H.
    + injection H as <-. exact M.
    + apply turn_knob_frame in H as (Hm & _). rewrite Hm in M.
      destruct (ias_knob_frame pos (alt_knob pos (press_mode_buttons pos s)))
        as (Im & _). rewrite Im in M.
      apply alt_knob_frame in M.
      destruct (press_mode_buttons_fold pos buttons s) as ([Pm | Pm] & _).
      * unfold press_mode_buttons in M. congruence.
      * unfold press_mode_buttons in M. rewrite M, buttons_modes in Pm.
        cbn in Pm. intuition discriminate.
    + injection H as <-. exact M.
  - intros s s' dt H M N. apply tick_mode in H. rewrite M in H.
    destruct (mode s); try congruence.
    + left. split; [reflexivity|].
      destruct (altitude s' >=? ALTITUDE_CMD s - ALT_CAPTURE_BAND);
        [reflexivity | discriminate].
    + right. split; [reflexivity|].
      destruct (altitude s' <=? ALTITUDE_CMD s + ALT_CAPTURE_BAND);
        [reflexivity | discriminate].
  - intros s s' dt H. apply tick_mode in H.
    split; intros M C; rewrite M, C in H; exact H.
Qed.

End ControllerFacts.


(** ** Clicks *)

Ltac rect_solve :=
  unfold collidepoint, ALT_UP, ALT_DN, IAS_UP, IAS_DN, TURN_UP, TURN_DN, PFD_WIDTH in *;
  cbn [left top width height fst snd] in *;
  rewrite ?andb_true_iff, ?andb_false_iff,
    ?Z.leb_le, ?Z.ltb_lt, ?Z.leb_gt, ?Z.ltb_ge in *;
  lia.

Section ClickFacts.

Context {F : Type} {AF : Arith F}.
Local Open Scope num_scope.

Lemma buttons_rects :
  buttons = [(CLIMB, mkRect 850 100 300 60); (DESCENT, mkRect 850 180 300 60);
             (CRUISE, mkRect 850 260 300 60); (ROLLS, mkRect 850 340 300 60)].
Proof. reflexivity. Qed.

(** A click inside a knob rectangle misses every mode button. *)
Lemma knob_misses_buttons (pos : Z * Z) :
  (460 <= snd pos)%Z ->
  Forall (fun mr : Mode * Rect => collidepoint (snd mr) pos = false) buttons.
Proof.
  intros H. rewrite buttons_rects. repeat constructor; cbn [snd]; rect_solve.
Qed.

Lemma press_mode_buttons_miss (pos : Z * Z) (s : Sim F) :
  (460 <= snd pos)%Z -> press_mode_buttons pos s = s.
Proof.
  intros H. unfold press_mode_buttons.
  apply (press_mode_buttons_fold pos buttons s), knob_misses_buttons, H.
Qed.

Lemma alt_knob_miss (pos : Z * Z) (s : Sim F) :
  collidepoint ALT_UP pos = false -> collidepoint ALT_DN pos = false ->
  alt_knob pos s = s.
Proof. unfold alt_knob. intros -> ->. reflexivity. Qed.

Lemma ias_knob_miss (pos : Z * Z) (s : Sim F) :
  collidepoint IAS_UP pos = false -> collidepoint IAS_DN pos = false ->
  ias_knob pos s = s.
Proof. unfold ias_knob. intros -> ->. reflexivity. Qed.

Lemma turn_knob_miss (pos : Z * Z) (s : Sim F) :
  collidepoint TURN_UP pos = false -> collidepoint TURN_DN pos = false ->
  turn_knob pos s = Some s.
Proof. unfold turn_knob. intros -> ->. reflexivity. Qed.

Lemma click_alt_up (pos : Z * Z) (s : Sim F) :
  collidepoint ALT_UP pos = true ->
  handle_event s (MOUSEBUTTONDOWN pos) =
  Some (if Mode_eqb (mode s) CRUISE
        then set_mode CLIMB (set_ALTITUDE_CMD (ALTITUDE_CMD s + lit 100) s)
        else set_ALTITUDE_CMD (ALTITUDE_CMD s + lit 100) s).
Proof.
  intros H. unfold handle_event.
  rewrite press_mode_buttons_miss by rect_solve.
  rewrite ias_knob_miss, turn_knob_miss by rect_solve.
  unfold alt_knob. rewrite H.
  replace (collidepoint ALT_DN pos) with false by (symmetry; rect_solve).
  reflexivity.
Qed.

Lemma click_alt_dn (pos : Z * Z) (s : Sim F) :
  collidepoint ALT_DN pos = true ->
  handle_event s (MOUSEBUTTONDOWN pos) =
  Some (if Mode_eqb (mode s) CRUISE
        then set_mode DESCENT (set_ALTITUDE_CMD (ALTITUDE_CMD s - lit 100) s)
        else set_ALTITUDE_CMD (ALTITUDE_CMD s - lit 100) s).
Proof.
  intros H. unfold handle_event.
  rewrite press_mode_buttons_miss by rect_solve.
  rewrite ias_knob_miss, turn_knob_miss by rect_solve.
  unfold alt_knob. rewrite H.
  replace (collidepoint ALT_UP pos) with false by (symmetry; rect_solve).
  reflexivity.
Qed.

Lemma Rect_disjoint_miss (a b : Rect) (pos : Z * Z) :
  Rect_disjoint a b = true -> collidepoint a pos = true -> collidepoint b pos = false.
Proof.
  unfold Rect_disjoint, collidepoint.
  rewrite !andb_true_iff, !orb_true_iff, !andb_false_iff,
    !Z.leb_le, !Z.ltb_lt, !Z.leb_gt, !Z.ltb_ge.
  lia.
Qed.

(** The knobs lie below the mode buttons. *)
Lemma knobs_miss_above (pos : Z * Z) :
  (snd pos < 460)%Z ->
  collidepoint ALT_UP pos = false /\ collidepoint ALT_DN pos = false /\
  collidepoint IAS_UP pos = false /\ collidepoint IAS_DN pos = false /\
  collidepoint TURN_UP pos = false /\ collidepoint TURN_DN pos = false.
Proof. intros H. repeat split; rect_solve. Qed.

Lemma press_mode_buttons_hit (pos : Z * Z) (s : Sim F) (m : Mode) (rect : Rect) :
  In (m, rect) buttons ->
  collidepoint rect pos = true ->
  press_mode_buttons pos s = set_mode m (set_prev_mode (mode s) s) /\
  (snd pos < 460)%Z.
Proof.
  intros I H. unfold press_mode_buttons. rewrite buttons_rects in *. cbn in I.
  destruct I as [I | [I | [I | [I | []]]]]; inversion I; subst; clear I;
    (split; [| rect_solve]); cbn [fold_left fst snd];
    repeat match goal with
    | |- context [collidepoint ?r pos] =>
        first [ rewrite H
              | match type of H with
                | collidepoint ?a pos = true =>
                    rewrite (Rect_disjoint_miss a r pos eq_refl H)
                end ]
    end; reflexivity.
Qed.

(** A click on a mode button records the mode it replaces. *)
Lemma click_mode_button (pos : Z * Z) (s : Sim F) (m : Mode) (rect : Rect) :
  In (m, rect) buttons ->
  collidepoint rect pos = true ->
  handle_event s (MOUSEBUTTONDOWN pos) =
  Some (set_mode m (set_prev_mode (mode s) s)).
Proof.
  intros I H. unfold handle_event.
  destruct (press_mode_buttons_hit pos s m rect I H) as [-> A].
  destruct (knobs_miss_above pos A) as (U & D & IU & ID & TU & TD).
  rewrite alt_knob_miss, ias_knob_miss, turn_knob_miss by assumption.
  reflexivity.
Qed.

(** C5. A click on the altitude knob moves [ALTITUDE_CMD] by 100 ft, up or
    down; in [CRUISE] it also switches the mode, to [CLIMB] on the way up and
    to [DESCENT] on the way down; in every other mode ([CLIMB], [DESCENT],
    [ALT_CAPTURE], [ROLLS]) the mode stays as it is. *)
Theorem altitude_knob_mode (s : Sim F) (pos : Z * Z) (up : bool) :
  collidepoint (if up then ALT_UP else ALT_DN) pos = true ->
  exists s' : Sim F,
    handle_event s (MOUSEBUTTONDOWN pos) = Some s' /\
    ALTITUDE_CMD s' =
      (if up then ALTITUDE_CMD s + lit 100 else ALTITUDE_CMD s - lit 100) /\
    (mode s = CRUISE -> mode s' = if up then CLIMB else DESCENT) /\
    (mode s <> CRUISE -> mode s' = mode s).
Proof.
  intros H. destruct up.
  - rewrite (click_alt_up pos s H). eexists. split; [reflexivity|].
    destruct (mode s) eqn:M; cbn; rewrite ?M; repeat split; congruence.
  - rewrite (click_alt_dn pos s H). eexists. split; [reflexivity|].
    destruct (mode s) eqn:M; cbn; rewrite ?M; repeat split; congruence.
Qed.

End ClickFacts.

(** ** The binary64 instance against Python *)

(** The literals of the source, as [lit] builds them and as Python reads
    them. *)
Lemma lit_float_ok :
  (lit 0.4 : float) = 0.4%float /\ (lit 0.8 : float) = 0.8%float /\
  (lit 0.01 : float) = 0.01%float /\ (lit 1.2 : float) = 1.2%float /\
  (lit 1.5 : float) = 1.5%float /\ (lit 2.5 : float) = 2.5%float /\
  (lit (-600.0) : float) = (-600)%float /\ (lit 1091 : float) = 1091%float /\
  dt16 = 0.016%float /\ dt60 = 0.016666666666666666%float.
Proof. vm_compute. repeat split; reflexivity. Qed.

(** [%] on a few operands, as CPython evaluates them. *)
Lemma py_mod_examples :
  Binary64.py_mod 370 360 = 10%float /\
  Binary64.py_mod (-10) 360 = 350%float /\
  Binary64.py_mod 725.5 360 = 5.5%float /\
  Binary64.py_mod (-0.1) 360 = 359.9%float /\
  Binary64.py_mod 359.99999999999994 360 = 359.99999999999994%float /\
  Binary64.py_mod 1e22 0.1 = 0.08768742176060307%float /\
  Binary64.py_mod 7.5 (-2) = (-0.5)%float.
Proof. vm_compute. repeat split; reflexivity. Qed.

(** ** Binary64 comparisons *)

Module Binary64Facts.

Local Open Scope float_scope.

Lemma ltb_leb (x y : float) : (x <? y) = true -> (x <=? y) = true.
Proof.
  rewrite ltb_spec, leb_spec. unfold SFltb, SFleb.
  destruct (SFcompare (Prim2SF x) (Prim2SF y)) as [[ | | ]|]; congruence.
Qed.

(** Nothing at or above one hundredth equals zero. *)
Lemma above_hundredth_nonzero (x : float) :
  (0.01 <=? x) = true -> (x =? 0) = false.
Proof.
  rewrite leb_spec, FloatAxioms.eqb_spec.
  replace (Prim2SF 0.01) with (S754_finite false 5764607523034235 (-59))
    by (vm_compute; reflexivity).
  replace (Prim2SF 0) with (S754_zero false) by (vm_compute; reflexivity).
  intros H. destruct (Prim2SF x) as [s | s | | s m e].
  - discriminate H.
  - destruct s; reflexivity.
  - reflexivity.
  - destruct s; reflexivity.
Qed.

Lemma SFcompare_pos_finite (m1 m2 : positive) (e1 e2 : Z) :
  SFcompare (S754_finite false m1 e1) (S754_finite false m2 e2) =
  Some match (e1 ?= e2)%Z with
       | Eq => Pos.compare_cont Eq m1 m2
       | Lt => Lt
       | Gt => Gt
       end.
Proof. reflexivity. Qed.

Lemma above_thirty (a : float) :
  (30 <? a) = true -> (a <? 1) = false /\ (1 <=? a) = true /\ (a =? 0) = false.
Proof.
  rewrite !ltb_spec, leb_spec, FloatAxioms.eqb_spec.
  replace (Prim2SF 30) with (S754_finite false 8444249301319680 (-48))
    by (vm_compute; reflexivity).
  replace (Prim2SF 1) with (S754_finite false 4503599627370496 (-52))
    by (vm_compute; reflexivity).
  replace (Prim2SF 0) with (S754_zero false) by (vm_compute; reflexivity).
  unfold SFltb, SFleb, SFeqb.
  destruct (Prim2SF a) as [s | s | | s m e].
  - discriminate.
  - destruct s; [discriminate | intros _; repeat split; reflexivity].
  - discriminate.
  - destruct s; [discriminate|].
    rewrite !SFcompare_pos_finite.
    destruct (Z.compare_spec (-48) e) as [<- | L | G].
    + intros _. repeat split; reflexivity.
    + intros _. destruct (Z.compare_spec e (-52)); try lia.
      destruct (Z.compare_spec (-52) e); try lia. repeat split; reflexivity.
    + discriminate.
Qed.

Lemma one_le_max_one (a : float) :
  (a =? a) = true -> (1 <=? (if a <? 1 then 1 else a)) = true.
Proof.
  destruct (a <? 1) eqn:L; [reflexivity|]. revert L.
  rewrite ltb_spec, leb_spec, FloatAxioms.eqb_spec.
  replace (Prim2SF 1) with (S754_finite false 4503599627370496 (-52))
    by (vm_compute; reflexivity).
  unfold SFltb, SFleb, SFeqb.
  destruct (Prim2SF a) as [s | s | | s m e].
  - cbn. discriminate.
  - destruct s; cbn; [discriminate | reflexivity].
  - cbn. discriminate.
  - destruct s; [cbn; discriminate|].
    rewrite !SFcompare_pos_finite. intros L _.
    rewrite (Z.compare_antisym e (-52)).
    replace (Pos.compare_cont Eq 4503599627370496 m)
      with (CompOpp (Pos.compare_cont Eq m 4503599627370496))
      by apply (Pos.compare_cont_antisym m 4503599627370496 Eq).
    destruct (e ?= -52)%Z; cbn [CompOpp] in *; try reflexivity; try discriminate.
    destruct (Pos.compare_cont Eq m 4503599627370496);
      cbn [CompOpp]; reflexivity || discriminate.
Qed.

Lemma SFcompare_antisym (x y : spec_float) :
  SFcompare y x =
  match SFcompare x y with
  | Some c => Some (CompOpp c)
  | None => None
  end.
Proof.
  destruct x as [sx | sx | | sx mx ex], y as [sy | sy | | sy my ey]; cbn;
    try reflexivity;
    try (destruct sx; reflexivity); try (destruct sy; reflexivity);
    try (destruct sx, sy; reflexivity).
  destruct sx, sy; try reflexivity;
    rewrite (Z.compare_antisym ex ey);
    destruct (ex ?= ey)%Z; cbn [CompOpp]; try reflexivity.
  - do 2 f_equal. symmetry. apply (Pos.compare_cont_antisym mx my Eq).
  - f_equal. symmetry. apply (Pos.compare_cont_antisym mx my Eq).
Qed.

(** [x <= y] excludes [x > y]. *)
Lemma leb_not_gt (x y : float) : (x <=? y) = true -> (y <? x) = false.
Proof.
  rewrite leb_spec, ltb_spec. unfold SFleb, SFltb.
  rewrite (SFcompare_antisym (Prim2SF x) (Prim2SF y)).
  destruct (SFcompare (Prim2SF x) (Prim2SF y)) as [[ | | ]|]; cbn; congruence.
Qed.

End Binary64Facts.

(** ** Division guards at binary64 *)

Section Guards.

Context {TF : Trig float}.
Local Open Scope num_scope.

Lemma divide_nonzero {F : Type} {AF : Arith F} (x y : F) :
  feqb y (ofZ 0) = false -> divide x y = Some (fdiv x y).
Proof. unfold divide. intros ->. reflexivity. Qed.

Lemma modulo_nonzero {F : Type} {AF : Arith F} (x y : F) :
  feqb y (ofZ 0) = false -> modulo x y = Some (fmod x y).
Proof. unfold modulo. intros ->. reflexivity. Qed.

Lemma g_denominator (bank : float) :
  (lit 0.01 <=? pymax (lit 0.01) (cos_rad bank)) = true /\
  feqb (pymax (lit 0.01) (cos_rad bank)) (ofZ 0) = false.
Proof.
  assert ((lit 0.01 <=? pymax (lit 0.01) (cos_rad bank)) = true) as H.
  { unfold pymax. destruct (lit 0.01 <? cos_rad bank) eqn:L.
    - apply Binary64Facts.ltb_leb, L.
    - vm_compute. reflexivity. }
  split; [exact H|].
  apply Binary64Facts.above_hundredth_nonzero. exact H.
Qed.

Lemma turn_denominator (a : float) :
  (a >? lit 30) = true ->
  (lit 1 <=? pymax a (lit 1)) = true /\ feqb (pymax a (lit 1)) (ofZ 0) = false.
Proof.
  intros H. apply Binary64Facts.above_thirty in H as (L & G & Z).
  unfold pymax. change (a <? lit 1) with (PrimFloat.ltb a 1). rewrite L.
  split; [exact G | exact Z].
Qed.

Lemma compute_g_total (bank : float) : exists g : float, compute_g bank = Some g.
Proof.
  unfold compute_g. rewrite divide_nonzero by apply g_denominator.
  eexists; reflexivity.
Qed.

Lemma heading_dynamics_total (s : Sim float) (dt : float) :
  exists s' : Sim float, heading_dynamics s dt = Some s'.
Proof.
  unfold heading_dynamics.
  destruct ((fabs (roll s) >? lit 1.0) && (airspeed s >? lit 30)) eqn:G.
  - apply andb_true_iff in G as [_ G].
    rewrite divide_nonzero by (apply turn_denominator, G). cbn [bind].
    rewrite modulo_nonzero by (vm_compute; reflexivity).
    eexists; reflexivity.
  - eexists; reflexivity.
Qed.

Lemma flight_logic_total (s : Sim float) (dt : float) :
  exists s1 : Sim float, flight_logic s dt = Some s1.
Proof.
  unfold flight_logic. destruct (mode s).
  - rewrite divide_nonzero by (vm_compute; reflexivity). eexists; reflexivity.
  - rewrite divide_nonzero by (vm_compute; reflexivity). eexists; reflexivity.
  - rewrite divide_nonzero by (vm_compute; reflexivity). cbn [bind].
    rewrite divide_nonzero by (vm_compute; reflexivity). eexists; reflexivity.
  - eexists; reflexivity.
  - destruct (compute_g_total
                (fabs (roll (set_roll (smooth (roll s) (ofZ (bank_angle s)) (lit 1.5) dt) s))))
      as [g ->].
    eexists; reflexivity.
Qed.

(** C8. No tick divides by zero: for every state and every [dt] the tick
    returns a state.  The denominators are the literals 60, 25, 150 and 360,
    [max(airspeed, 1)], which is at least 1 whenever the turn rate is computed
    (that is, when [airspeed > 30]) and for every airspeed that is a number,
    and [max(0.01, cos(radians(bank)))], which is at least 0.01 for every
    bank and every value of the cosine. *)
Theorem tick_total :
  (forall (s : Sim float) (dt : float), exists s' : Sim float, tick s dt = Some s') /\
  (forall a : float, (a >? lit 30) = true -> (lit 1 <=? pymax a (lit 1)) = true) /\
  (forall a : float, isnan a = false -> (lit 1 <=? pymax a (lit 1)) = true) /\
  (forall bank : float, (lit 0.01 <=? pymax (lit 0.01) (cos_rad bank)) = true) /\
  (forall c : float, (lit 0.01 <=? pymax (lit 0.01) c) = true) /\
  ((lit 0 : float) <? lit 60) = true /\ ((lit 0 : float) <? lit 25) = true /\
  ((lit 0 : float) <? lit 150.0) = true /\ ((lit 0 : float) <? lit 360) = true.
Proof.
  split; [|split; [|split; [|split; [|split; [|repeat split]]]]].
  - intros s dt. unfold tick.
    destruct (flight_logic_total s dt) as [s1 ->]. cbn [bind].
    apply heading_dynamics_total.
  - intros a H. apply turn_denominator, H.
  - intros a H. unfold isnan in H. apply negb_false_iff in H.
    apply Binary64Facts.one_le_max_one, H.
  - intros bank. apply g_denominator.
  - intros c. unfold pymax. destruct (lit 0.01 <? c) eqn:L.
    + apply Binary64Facts.ltb_leb, L.
    + vm_compute. reflexivity.
Qed.

End Guards.

(** C3. On every tick the heading is updated from the roll and airspeed that
    the flight logic has just produced: when [abs(roll) > 1.0] and
    [airspeed > 30] it becomes
    [(heading + (1091 * tan(radians(roll)) / max(airspeed, 1)) * dt) % 360],
    and otherwise it keeps its value (no decay of the turn); at binary64, in
    particular, it keeps its value when [abs(roll) <= 1.0] or
    [airspeed <= 30]. *)
Theorem heading_update_exact :
  (forall (F : Type) (AF : Arith F) (TF : Trig F) (s s' : Sim F) (dt : F),
     tick s dt = Some s' ->
     heading s' =
     if ((fabs (roll s') >? lit 1.0) && (airspeed s' >? lit 30))%num
     then fmod (heading s +
                fdiv (lit 1091 * tan_rad (roll s')) (pymax (airspeed s') (lit 1)) *
                dt)%num
               (lit 360)
     else heading s) /\
  (forall (TF : Trig float) (s s' : Sim float) (dt : float),
     tick s dt = Some s' ->
     (fabs (roll s') <=? lit 1.0)%num = true \/ (airspeed s' <=? lit 30)%num = true ->
     heading s' = heading s).
Proof.
  split.
  - intros F AF TF s s' dt H. apply heading_update_generic, H.
  - intros TF s s' dt H G. rewrite (heading_update_generic s s' dt H).
    destruct G as [G | G]; apply Binary64Facts.leb_not_gt in G;
      cbn [fltb FloatArith]; rewrite G; [|rewrite andb_false_r]; reflexivity.
Qed.

Lemma heading_update_exact_witness :
  exists s' : Sim float,
    tick (TF := SampleTrig) banked_left dt16 = Some s' /\
    heading s' = 359.89915282029165%float.
Proof.
  eexists. split.
  - vm_compute. reflexivity.
  - erewrite (proj1 heading_update_exact float FloatArith SampleTrig banked_left _ dt16)
      by (vm_compute; reflexivity).
    vm_compute. reflexivity.
Defined.

(** ** Runs *)

Section Runs.

Context {F : Type} {AF : Arith F} {TF : Trig F}.

Lemma run_add (n m : nat) (s : Sim F) (dt : F) :
  run (n + m) s dt = (s' <- run n s dt ;; run m s' dt).
Proof.
  revert s. induction n as [|n IH]; intros s; cbn; [reflexivity|].
  destruct (tick s dt) as [s1|]; cbn; [apply IH | reflexivity].
Qed.

Lemma all_ticks_spec (n : nat) (p : Sim F -> bool) (s : Sim F) (dt : F) :
  all_ticks n p s dt = true ->
  forall k : nat, (1 <= k <= n)%nat ->
  exists s' : Sim F, run k s dt = Some s' /\ p s' = true.
Proof.
  revert s. induction n as [|n IH]; intros s H k Hk; [lia|].
  cbn in H. destruct (tick s dt) as [s1|] eqn:T; [|discriminate].
  apply andb_true_iff in H as [P H].
  destruct k as [|[|k]]; [lia | | ].
  - exists s1. cbn. rewrite T. cbn. split; [reflexivity | exact P].
  - destruct (IH s1 H (S k)) as (s' & R & P'); [lia|].
    exists s'. split; [|exact P'].
    change (run (S (S k)) s dt) with (s2 <- tick s dt ;; run (S k) s2 dt).
    rewrite T. exact R.
Qed.

(** The same, counted from a state reached after [n0] ticks. *)
Lemma all_ticks_from (n0 n : nat) (p : Sim F -> bool) (s s0 : Sim F) (dt : F) :
  run n0 s dt = Some s0 ->
  p s0 = true ->
  all_ticks n p s0 dt = true ->
  forall k : nat, (n0 <= k <= n0 + n)%nat ->
  exists s' : Sim F, run k s dt = Some s' /\ p s' = true.
Proof.
  intros R P H k Hk.
  destruct (Nat.eq_dec k n0) as [-> | N].
  - exists s0. split; assumption.
  - destruct (all_ticks_spec n p s0 dt H (k - n0)) as (s' & R' & P'); [lia|].
    exists s'. split; [|exact P'].
    replace k with (n0 + (k - n0))%nat by lia.
    rewrite run_add, R. exact R'.
Qed.

End Runs.

(** ** The climb from 1000 ft to 2000 ft at 60 Hz *)

Section ClimbRun.

Context {TF : Trig float}.
Local Open Scope num_scope.

Lemma climb_run_4771 :
  exists s : Sim float,
    run (N.to_nat 4771) climb_start dt60 = Some s /\
    mode s = ALT_CAPTURE /\
    (altitude s >=? ALTITUDE_CMD s - ALT_CAPTURE_BAND) = true /\
    capturing_outside s = true /\
    all_ticks (N.to_nat 717) capturing_outside s dt60 = true.
Proof.
  eexists. split; [vm_compute; reflexivity|].
  vm_compute. repeat split; reflexivity.
Qed.

(** C1, as the code has it. From altitude 1000, [ALTITUDE_CMD] 2000 and mode
    [CLIMB] (all else as at start-up), with [dt = 1/60] on every tick:
    - after each of the ticks 1 to 4770 the mode is [CLIMB] and the altitude
      just integrated is below [ALTITUDE_CMD - 80 = 1920];
    - tick 4771 is the first whose integrated altitude reaches 1920, and it
      sets the mode to [ALT_CAPTURE];
    - the capture test reads the error taken at the start of a tick, before
      that tick integrates the altitude: the states after ticks 4771 to 5488
      are [ALT_CAPTURE] with [|ALTITUDE_CMD - altitude| >= 5], the state after
      tick 5489 is still [ALT_CAPTURE] although its altitude is within 5 ft,
      and tick 5490, the first to start within 5 ft, sets the mode to
      [CRUISE] and snaps altitude to 2000.0, vspeed to 0.0, airspeed to
      [IAS_CMD] and pitch to 0.0. *)
Theorem climb_capture_cruise :
  ALTITUDE_CMD climb_start - ALT_CAPTURE_BAND = 1920%float /\
  (forall k : N, (1 <= k <= 4770)%N ->
     exists s : Sim float,
       run (N.to_nat k) climb_start dt60 = Some s /\
       mode s = CLIMB /\
       (altitude s >=? ALTITUDE_CMD s - ALT_CAPTURE_BAND) = false) /\
  (exists s : Sim float,
     run (N.to_nat 4771) climb_start dt60 = Some s /\
     mode s = ALT_CAPTURE /\
     (altitude s >=? ALTITUDE_CMD s - ALT_CAPTURE_BAND) = true) /\
  (forall k : N, (4771 <= k <= 5488)%N ->
     exists s : Sim float,
       run (N.to_nat k) climb_start dt60 = Some s /\
       mode s = ALT_CAPTURE /\
       (fabs (ALTITUDE_CMD s - altitude s) <? lit 5) = false) /\
  (exists s : Sim float,
     run (N.to_nat 5489) climb_start dt60 = Some s /\
     mode s = ALT_CAPTURE /\
     (fabs (ALTITUDE_CMD s - altitude s) <? lit 5) = true) /\
  (exists s : Sim float,
     run (N.to_nat 5490) climb_start dt60 = Some s /\
     mode s = CRUISE /\
     altitude s = 2000%float /\ vspeed s = 0%float /\
     airspeed s = IAS_CMD s /\ pitch s = 0%float).
Proof.
  split; [vm_compute; reflexivity|].
  split.
  { intros k Hk.
    assert (all_ticks (N.to_nat 4770) climbing_below_band climb_start dt60 = true) as A
      by (vm_compute; reflexivity).
    destruct (all_ticks_spec _ _ _ _ A (N.to_nat k)) as (s & R & P); [lia|].
    exists s. split; [exact R|].
    unfold climbing_below_band in P. apply andb_true_iff in P as [M B].
    apply Mode_eqb_eq in M. apply negb_true_iff in B. split; assumption. }
  split.
  { destruct climb_run_4771 as (s & R & M & B & _). exists s. auto. }
  split.
  { intros k Hk.
    destruct climb_run_4771 as (s0 & R0 & _ & _ & P0 & A).
    destruct (all_ticks_from _ _ _ _ _ _ R0 P0 A (N.to_nat k)) as (s & R & P); [lia|].
    exists s. split; [exact R|].
    unfold capturing_outside in P. apply andb_true_iff in P as [M B].
    apply Mode_eqb_eq in M. apply negb_true_iff in B. split; assumption. }
  split.
  { eexists. split; [vm_compute; reflexivity|].
    vm_compute. repeat split; reflexivity. }
  eexists. split; [vm_compute; reflexivity|].
  vm_compute. repeat split; reflexivity.
Qed.

End ClimbRun.

(** C1, as the specification words it: were the capture test evaluated on
    the state just updated, tick 5489 would switch to [CRUISE]. It starts in
    [ALT_CAPTURE], its updated altitude is within 5 ft of [ALTITUDE_CMD], and
    the mode after it is still [ALT_CAPTURE]. *)
Lemma capture_test_reads_old_error :
  exists s0 s : Sim float,
    run (TF := SampleTrig) (N.to_nat 5488) climb_start dt60 = Some s0 /\
    mode s0 = ALT_CAPTURE /\
    tick (TF := SampleTrig) s0 dt60 = Some s /\
    altitude s = 1995.0024603240986%float /\
    (fabs (ALTITUDE_CMD s - altitude s) <? lit 5)%num = true /\
    mode s = ALT_CAPTURE.
Proof.
  eexists. eexists. split; [vm_compute; reflexivity|].
  split; [reflexivity|]. split; [vm_compute; reflexivity|].
  vm_compute. repeat split; reflexivity.
Qed.

(** ** Smoothing *)

Section ExactSmoothing.

Local Open Scope Q_scope.

Lemma smooth_exact (v t r dt : Q) : smooth v t r dt = v + (t - v) * r * dt.
Proof. reflexivity. Qed.

Lemma smooth_exact_below (v t r dt : Q) :
  0 < r -> 0 < dt -> r * dt <= 1 -> v <= t ->
  v <= smooth v t r dt /\ smooth v t r dt <= t.
Proof.
  intros Hr Hd Hrd Hv. rewrite smooth_exact.
  assert (0 < r * dt) as P by nra.
  assert (0 <= (t - v) * (r * dt)) by (apply Qmult_le_0_compat; lra).
  assert (0 <= (t - v) * (1 - r * dt)) by (apply Qmult_le_0_compat; lra).
  split; lra.
Qed.

Lemma smooth_exact_above (v t r dt : Q) :
  0 < r -> 0 < dt -> r * dt <= 1 -> t <= v ->
  t <= smooth v t r dt /\ smooth v t r dt <= v.
Proof.
  intros Hr Hd Hrd Hv. rewrite smooth_exact.
  assert (0 < r * dt) as P by nra.
  assert (0 <= (v - t) * (r * dt)) by (apply Qmult_le_0_compat; lra).
  assert (0 <= (v - t) * (1 - r * dt)) by (apply Qmult_le_0_compat; lra).
  split; lra.
Qed.

Lemma smooth_exact_distance (v t r dt : Q) :
  0 < r -> 0 < dt -> r * dt <= 1 ->
  Qabs (smooth v t r dt - t) <= Qabs (v - t).
Proof.
  intros Hr Hd Hrd. destruct (Qlt_le_dec t v) as [L | L].
  - destruct (smooth_exact_above v t r dt Hr Hd Hrd) as [A B]; [lra|].
    rewrite !Qabs_pos by lra. lra.
  - destruct (smooth_exact_below v t r dt Hr Hd Hrd L) as [A B].
    rewrite !Qabs_neg by lra. lra.
Qed.

Lemma smooth_seq_side (v t r dt : Q) (n : nat) :
  0 < r -> 0 < dt -> r * dt <= 1 ->
  (v <= t -> smooth_seq v t r dt n <= t) /\
  (t <= v -> t <= smooth_seq v t r dt n).
Proof.
  intros Hr Hd Hrd. induction n as [|n [IHb IHa]]; cbn [smooth_seq].
  - split; intros H; exact H.
  - split; intros H.
    + apply smooth_exact_below; auto.
    + apply smooth_exact_above; auto.
Qed.

(** C2, in exact arithmetic. For a target [t], a rate [r > 0] and a constant
    [dt > 0] with [r * dt <= 1], every step of the sequence
    [v_(n+1) = smooth(v_n, t, r, dt)] lands between [v_n] and [t]: the
    sequence moves monotonically toward [t], stays on the side of [t] where it
    started (the sign of [t - v_n] never flips) and its distance to [t] never
    grows. *)
Theorem smooth_monotone_exact (v t r dt : Q) (n : nat) :
  0 < r -> 0 < dt -> r * dt <= 1 ->
  (v <= t ->
   smooth_seq v t r dt n <= smooth_seq v t r dt (S n) /\
   smooth_seq v t r dt (S n) <= t) /\
  (t <= v ->
   t <= smooth_seq v t r dt (S n) /\
   smooth_seq v t r dt (S n) <= smooth_seq v t r dt n) /\
  Qabs (smooth_seq v t r dt (S n) - t) <= Qabs (smooth_seq v t r dt n - t).
Proof.
  intros Hr Hd Hrd.
  destruct (smooth_seq_side v t r dt n Hr Hd Hrd) as [Sb Sa].
  cbn [smooth_seq]. repeat split; intros.
  - apply smooth_exact_below; auto.
  - apply smooth_exact_below; auto.
  - apply smooth_exact_above; auto.
  - apply smooth_exact_above; auto.
  - apply smooth_exact_distance; auto.
Qed.

End ExactSmoothing.

Lemma smooth_monotone_exact_witness :
  (0 < 3)%Q /\ (0 < 1 # 60)%Q /\ (3 * (1 # 60) <= 1)%Q /\
  (smooth_seq 0 30 3 (1 # 60) 2 <= smooth_seq 0 30 3 (1 # 60) 3)%Q /\
  (smooth_seq 0 30 3 (1 # 60) 3 <= 30)%Q.
Proof.
  assert (0 < 3)%Q as Hr by reflexivity.
  assert (0 < 1 # 60)%Q as Hd by reflexivity.
  assert (3 * (1 # 60) <= 1)%Q as Hrd by (vm_compute; discriminate).
  assert (0 <= 30)%Q as Hv by (vm_compute; discriminate).
  destruct (proj1 (smooth_monotone_exact 0 30 3 (1 # 60) 2 Hr Hd Hrd) Hv) as [A B].
  repeat split; assumption.
Defined.

(** C2, at binary64: with [r * dt = 1] the rounding of [t - v] carries the
    value past the target. From 1.0 toward 0.1 with rate 2.0 and [dt = 0.5]
    one step returns 0.09999999999999998, below the target. *)
Lemma smooth_overshoots_binary64 :
  ((lit 0 : float) <? lit 2.0)%num = true /\
  ((lit 0 : float) <? lit 0.5)%num = true /\
  ((lit 2.0 : float) * lit 0.5 <=? lit 1)%num = true /\
  ((lit 0.1 : float) <=? lit 1.0)%num = true /\
  smooth (lit 1.0) (lit 0.1) (lit 2.0) (lit 0.5) = 0.09999999999999998%float /\
  (smooth (lit 1.0 : float) (lit 0.1) (lit 2.0) (lit 0.5) <? lit 0.1)%num = true.
Proof. vm_compute. repeat split; reflexivity. Qed.

(** ** Heading range *)

Section ExactHeading.

Context {TQ : Trig Q}.
Local Open Scope Q_scope.

Lemma exact_mod_range (x y : Q) : 0 < y -> 0 <= fmod x y /\ fmod x y < y.
Proof.
  intros Hy. cbn [fmod ExactArith].
  pose proof (Qfloor_le (x / y)) as L.
  pose proof (Qlt_floor (x / y)) as U.
  rewrite inject_Z_plus in U.
  set (q := inject_Z (Qfloor (x / y))) in *.
  assert (x == y * (x / y)) as E by (field; lra).
  assert (0 <= y * (x / y - q)) by (apply Qmult_le_0_compat; lra).
  assert (0 <= y * (q + inject_Z 1 - x / y)) by (apply Qmult_le_0_compat; lra).
  assert (~ y * (q + inject_Z 1 - x / y) == 0) as N.
  { intros Z. apply Qmult_integral in Z as [Z | Z]; lra. }
  change (inject_Z 1) with 1 in *.
  split; lra.
Qed.

(** In exact arithmetic the wrap keeps the heading in [0, 360). *)
Lemma heading_in_range_exact (s s' : Sim Q) (dt : Q) :
  tick s dt = Some s' ->
  0 <= heading s /\ heading s < 360 ->
  0 <= heading s' /\ heading s' < 360.
Proof.
  intros H R. rewrite (heading_update_generic s s' dt H).
  destruct (_ && _); [|exact R].
  destruct (exact_mod_range
              (heading s +
               fdiv (lit 1091 * tan_rad (roll s')) (pymax (airspeed s') (lit 1)) * dt)%num
              (lit 360)) as [A B]; [reflexivity|].
  split; [exact A|].
  eapply Qlt_le_trans; [exact B|]. vm_compute. discriminate.
Qed.

End ExactHeading.

(** C4 at binary64. In a steady 30 degree left bank at 100 kt, with the 16 ms
    frame time, a heading of 0.10084717970835695 (inside [0, 360)) plus the
    turn of the tick is -1.4e-14; Python's [%] adds 360 to it and the sum
    rounds to 360.0: the heading leaves [0, 360). *)
Lemma heading_wraps_to_360 :
  (lit 0 <=? heading banked_left_near_north)%num = true /\
  (heading banked_left_near_north <? lit 360)%num = true /\
  exists s' : Sim float,
    tick (TF := SampleTrig) banked_left_near_north dt16 = Some s' /\
    heading s' = 360%float /\
    (heading s' <? lit 360)%num = false.
Proof.
  split; [vm_compute; reflexivity|]. split; [vm_compute; reflexivity|].
  eexists. split; [vm_compute; reflexivity|].
  vm_compute. split; reflexivity.
Qed.

(** The same whatever the last digits of the library's tangent and cosine:
    each value within two units in the last place of [tan] of -30 degrees and
    of [cos] of 30 degrees gives 360.0. *)
Lemma heading_wraps_to_360_any_rounding :
  forallb
    (fun t =>
       forallb (fun c => wraps_to_360 (ConstantTrig t c) banked_left_near_north dt16)
         [0.8660254037844385; 0.8660254037844386; 0.8660254037844387;
          0.8660254037844388; 0.8660254037844389]%float)
    [-0.577350269189626; -0.5773502691896258; -0.5773502691896257;
     -0.5773502691896256; -0.5773502691896255]%float
  = true.
Proof. vm_compute. reflexivity. Qed.

(** The wrap alone: a tiny negative angle wraps to 360.0, not below it. *)
Lemma py_mod_tiny_negative :
  Binary64.py_mod (-1e-20)%float 360%float = 360%float.
Proof. vm_compute. reflexivity. Qed.

(** ** [prev_mode] *)

(** C7. From start-up, click [ROLLS], then [CRUISE], then the altitude knob
    "+100": the knob switches the mode from [CRUISE] to [CLIMB] and leaves
    [prev_mode] at [ROLLS], the mode before the one just replaced. *)
Lemma alt_knob_keeps_stale_prev_mode :
  exists s1 s2 : Sim float,
    handle_events init [MOUSEBUTTONDOWN (1000, 370); MOUSEBUTTONDOWN (1000, 290)]
      = Some s1 /\
    mode s1 = CRUISE /\ prev_mode s1 = ROLLS /\
    collidepoint ALT_UP (950, 480) = true /\
    handle_event s1 (MOUSEBUTTONDOWN (950, 480)) = Some s2 /\
    mode s2 = CLIMB /\ prev_mode s2 = ROLLS.
Proof.
  eexists. eexists. split; [vm_compute; reflexivity|].
  split; [reflexivity|]. split; [reflexivity|]. split; [reflexivity|].
  split; [vm_compute; reflexivity|]. split; reflexivity.
Qed.

(** The altitude knob never writes [prev_mode], whatever the state. *)
Lemma alt_knob_never_records {F : Type} {AF : Arith F} (s s' : Sim F) (pos : Z * Z)
  (up : bool) :
  collidepoint (if up then ALT_UP else ALT_DN) pos = true ->
  handle_event s (MOUSEBUTTONDOWN pos) = Some s' ->
  prev_mode s' = prev_mode s.
Proof.
  intros H E. destruct up.
  - rewrite (click_alt_up pos s H) in E. injection E as <-.
    destruct (Mode_eqb (mode s) CRUISE); reflexivity.
  - rewrite (click_alt_dn pos s H) in E. injection E as <-.
    destruct (Mode_eqb (mode s) CRUISE); reflexivity.
Qed.

(** ** The statements above at concrete inputs *)

Lemma altitude_knob_mode_witness :
  collidepoint (if true then ALT_UP else ALT_DN) (950, 480) = true /\
  exists s' : Sim float,
    handle_event init (MOUSEBUTTONDOWN (950, 480)) = Some s' /\
    ALTITUDE_CMD s' = 1100%float /\ mode s' = CLIMB.
Proof.
  split; [reflexivity|].
  destruct (altitude_knob_mode (init (F := float)) (950, 480) true eq_refl)
    as (s' & E & A & M & _).
  exists s'. split; [exact E|]. split; [rewrite A; vm_compute; reflexivity|].
  apply M. reflexivity.
Defined.

Lemma alt_capture_only_internal_witness :
  exists s' : Sim float,
    tick (TF := SampleTrig) (set_altitude 1919.999%float climb_start) dt60 = Some s' /\
    mode s' = ALT_CAPTURE /\
    (altitude s' >=? ALTITUDE_CMD climb_start - ALT_CAPTURE_BAND)%num = true.
Proof.
  eexists. split; [vm_compute; reflexivity|]. split; [reflexivity|].
  match goal with
  | |- (altitude ?s >=? _)%num = true =>
      destruct (proj1 (proj2 (alt_capture_only_internal (TF := SampleTrig)))
                  (set_altitude 1919.999%float climb_start) s dt60)
        as [[_ H] | [H _]];
        [ vm_compute; reflexivity | reflexivity | discriminate
        | exact H | discriminate H ]
  end.
Defined.

Lemma tick_total_witness :
  exists s' : Sim float, tick (TF := SampleTrig) banked_left dt16 = Some s'.
Proof. exact (proj1 (tick_total (TF := SampleTrig)) banked_left dt16). Defined.

Lemma climb_capture_cruise_witness :
  exists s : Sim float,
    run (TF := SampleTrig) (N.to_nat 4770) climb_start dt60 = Some s /\
    mode s = CLIMB /\
    (altitude s >=? ALTITUDE_CMD s - ALT_CAPTURE_BAND)%num = false.
Proof.
  apply (proj1 (proj2 (climb_capture_cruise (TF := SampleTrig))) 4770%N). lia.
Defined.

(** ** G-load *)

Section ExactGLoad.

Context {TQ : Trig Q}.
Local Open Scope Q_scope.



End ExactGLoad.



(** ** Layout *)

Section LayoutFacts.

Context {F : Type} {AF : Arith F}.
Variable background_rect_right : Pfd.Instrument F -> F.
Local Open Scope num_scope.

Lemma new_layout (res : Z * Z) (max_fps : option Z) (masked little : bool) :
  let p := Pfd.new background_rect_right res max_fps masked little in
  let cx := ofZ (Z.quot (fst res) 2) in
  let cy := ofZ (Z.quot (snd res) 2) in
  Pfd.unit p = fdiv (ofZ (Z.min (fst res) (snd res))) (ofZ 16) /\
  Pfd.position (Pfd.airspeed_indicator p) = Some (cx - Pfd.unit p * ofZ 5, cy) /\
  Pfd.position (Pfd.altitude_indicator p) = Some (cx + Pfd.unit p * ofZ 5, cy) /\
  Pfd.position (Pfd.heading_indicator p) = Some (cx, cy + Pfd.unit p * ofZ 5).
Proof. destruct little; cbn; repeat split; reflexivity. Qed.

Lemma call_keeps_layout (p : Pfd.PrimaryFlightDisplay F) (c : Pfd.Call F) :
  Pfd.unit (Pfd.call p c) = Pfd.unit p /\
  Pfd.position (Pfd.airspeed_indicator (Pfd.call p c)) =
    Pfd.position (Pfd.airspeed_indicator p) /\
  Pfd.position (Pfd.altitude_indicator (Pfd.call p c)) =
    Pfd.position (Pfd.altitude_indicator p) /\
  Pfd.position (Pfd.heading_indicator (Pfd.call p c)) =
    Pfd.position (Pfd.heading_indicator p).
Proof. destruct c; cbn; repeat split; reflexivity. Qed.

Lemma calls_keep_layout (cs : list (Pfd.Call F)) (p : Pfd.PrimaryFlightDisplay F) :
  let p' := fold_left Pfd.call cs p in
  Pfd.unit p' = Pfd.unit p /\
  Pfd.position (Pfd.airspeed_indicator p') = Pfd.position (Pfd.airspeed_indicator p) /\
  Pfd.position (Pfd.altitude_indicator p') = Pfd.position (Pfd.altitude_indicator p) /\
  Pfd.position (Pfd.heading_indicator p') = Pfd.position (Pfd.heading_indicator p).
Proof.
  revert p. induction cs as [|c cs IH]; intros p; cbn.
  - repeat split; reflexivity.
  - destruct (IH (Pfd.call p c)) as (A & B & C & D).
    destruct (call_keeps_layout p c) as (A' & B' & C' & D').
    cbn in *. repeat split; congruence.
Qed.

End LayoutFacts.

(** C9. For a display built at resolution (w, h): [unit] is [min(w, h) / 16]
    (50 for (800, 800)), the airspeed indicator sits at
    [(centerx - 5 unit, centery)], the altitude indicator at
    [(centerx + 5 unit, centery)] and the heading indicator at
    [(centerx, centery + 5 unit)]; no later call ([tick], [update], [draw])
    changes [unit] or these positions. *)
Theorem layout_from_unit :
  (forall (F : Type) (AF : Arith F) (bg : Pfd.Instrument F -> F)
     (w h : Z) (max_fps : option Z) (masked little : bool)
     (calls : list (Pfd.Call F)),
     let p0 := Pfd.new bg (w, h) max_fps masked little in
     let p := fold_left Pfd.call calls p0 in
     let cx := ofZ (Pfd.centerx (Pfd.surface_rect p0)) in
     let cy := ofZ (Pfd.centery (Pfd.surface_rect p0)) in
     Pfd.unit p0 = fdiv (ofZ (Z.min w h)) (ofZ 16) /\
     Pfd.unit p = Pfd.unit p0 /\
     Pfd.position (Pfd.airspeed_indicator p) =
       Some (cx - Pfd.unit p * ofZ 5, cy)%num /\
     Pfd.position (Pfd.altitude_indicator p) =
       Some (cx + Pfd.unit p * ofZ 5, cy)%num /\
     Pfd.position (Pfd.heading_indicator p) =
       Some (cx, cy + Pfd.unit p * ofZ 5)%num) /\
  (forall (bg : Pfd.Instrument float -> float) (max_fps : option Z)
     (masked little : bool),
     Pfd.unit (Pfd.new bg (800, 800) max_fps masked little) = 50%float) /\
  (forall (bg : Pfd.Instrument Q -> Q) (max_fps : option Z) (masked little : bool),
     (Pfd.unit (Pfd.new bg (800, 800)%Z max_fps masked little) == 50)%Q).
Proof.
  split; [|split].
  - intros F AF bg w h max_fps masked little calls p0 p cx cy.
    destruct (calls_keep_layout calls p0) as (A & B & C & D).
    destruct (new_layout bg (w, h) max_fps masked little) as (A' & B' & C' & D').
    fold p0 in A', B', C', D'. fold p in A, B, C, D.
    split; [exact A'|]. split; [exact A|].
    rewrite B, C, D, A. split; [exact B' | split; [exact C' | exact D']].
  - intros. vm_compute. reflexivity.
  - intros. vm_compute. reflexivity.
Qed.

(** * Further properties of the loop *)

(** ** Events *)

Section EventFacts.

Context {F : Type} {AF : Arith F}.
Local Open Scope num_scope.

Lemma index_In (l : list Z) (x : Z) :
  In x l ->
  exists i : nat, index l x = Some i /\ (i < length l)%nat /\ nth i l 0%Z = x.
Proof.
  induction l as [|y l IH]; intros H; [destruct H|].
  cbn [index]. destruct (Z.eqb_spec y x) as [-> | N].
  - exists O. cbn. repeat split; try reflexivity; lia.
  - destruct H as [H | H]; [congruence|].
    destruct (IH H) as (i & E & L & V). rewrite E. cbn [bind].
    exists (S i). cbn. repeat split; try reflexivity; try lia; exact V.
Qed.

Lemma index_not_In (l : list Z) (x : Z) : ~ In x l -> index l x = None.
Proof.
  induction l as [|y l IH]; intros H; [reflexivity|].
  cbn [index]. destruct (Z.eqb_spec y x) as [-> | N].
  - exfalso. apply H. left. reflexivity.
  - rewrite IH; [reflexivity|]. intros I. apply H. right. exact I.
Qed.

Lemma press_mode_buttons_keeps (pos : Z * Z) (l : list (Mode * Rect)) (s : Sim F) :
  let s' := fold_left
              (fun s mr => if collidepoint (snd mr) pos
                           then set_mode (fst mr) (set_prev_mode (mode s) s)
                           else s) l s in
  flight_vars s' = flight_vars s /\ setpoints s' = setpoints s /\
  running s' = running s.
Proof.
  revert s. induction l as [|mr l IH]; intros s; cbn.
  - repeat split; reflexivity.
  - destruct (collidepoint (snd mr) pos).
    + destruct (IH (set_mode (fst mr) (set_prev_mode (mode s) s))) as (A & B & C).
      cbn in A, B, C. rewrite A, B, C. repeat split; reflexivity.
    + apply IH.
Qed.

Lemma alt_knob_keeps (pos : Z * Z) (s : Sim F) :
  flight_vars (alt_knob pos s) = flight_vars s /\
  IAS_CMD (alt_knob pos s) = IAS_CMD s /\
  bank_angle (alt_knob pos s) = bank_angle s /\
  running (alt_knob pos s) = running s.
Proof.
  unfold alt_knob.
  destruct (collidepoint ALT_UP pos), (collidepoint ALT_DN pos);
    cbn; repeat (match goal with |- context [if ?b then _ else _] => destruct b end; cbn);
    repeat split; reflexivity.
Qed.

Lemma ias_knob_keeps (pos : Z * Z) (s : Sim F) :
  flight_vars (ias_knob pos s) = flight_vars s /\
  bank_angle (ias_knob pos s) = bank_angle s /\
  running (ias_knob pos s) = running s.
Proof.
  unfold ias_knob.
  destruct (collidepoint IAS_UP pos), (collidepoint IAS_DN pos); cbn;
    repeat split; reflexivity.
Qed.

(** One half of the turn knob: the index found, the bank angle moves to a
    neighbour in [BANK_OPTIONS] or stays. *)
Lemma turn_half_keeps (s s' : Sim F) (c : bool) (next : nat -> Sim F -> Sim F) :
  (forall i s0, flight_vars (next i s0) = flight_vars s0 /\
                running (next i s0) = running s0 /\
                mode (next i s0) = mode s0 /\ prev_mode (next i s0) = prev_mode s0 /\
                ALTITUDE_CMD (next i s0) = ALTITUDE_CMD s0 /\
                IAS_CMD (next i s0) = IAS_CMD s0) ->
  (if c then idx <- index BANK_OPTIONS (bank_angle s) ;; Some (next idx s)
   else Some s) = Some s' ->
  flight_vars s' = flight_vars s /\ running s' = running s /\
  mode s' = mode s /\ prev_mode s' = prev_mode s /\
  ALTITUDE_CMD s' = ALTITUDE_CMD s /\ IAS_CMD s' = IAS_CMD s.
Proof.
  intros N H. destruct c.
  - bind_inv H. injection H as <-. apply N.
  - injection H as <-. repeat split; reflexivity.
Qed.

Lemma turn_knob_keeps (pos : Z * Z) (s s' : Sim F) :
  turn_knob pos s = Some s' ->
  flight_vars s' = flight_vars s /\ running s' = running s /\
  mode s' = mode s /\ prev_mode s' = prev_mode s /\
  ALTITUDE_CMD s' = ALTITUDE_CMD s /\ IAS_CMD s' = IAS_CMD s.
Proof.
  unfold turn_knob. intros H. bind_inv H.
  apply turn_half_keeps
    with (next := fun idx s0 =>
                    if (idx <? length BANK_OPTIONS - 1)%nat
                    then set_bank_angle (nth (idx + 1) BANK_OPTIONS 0%Z) s0 else s0)
    in E;
    [| intros i t; destruct (i <? length BANK_OPTIONS - 1)%nat; cbn;
       repeat split; reflexivity ].
  apply turn_half_keeps
    with (next := fun idx s0 =>
                    if (0 <? idx)%nat
                    then set_bank_angle (nth (idx - 1) BANK_OPTIONS 0%Z) s0 else s0)
    in H;
    [| intros i t; destruct (0 <? i)%nat; cbn; repeat split; reflexivity ].
  destruct E as (A & B & C & D & G & I), H as (A' & B' & C' & D' & G' & I').
  repeat split; congruence.
Qed.

(** X1. Events act on the panel only: whatever the events of a frame, the
    roll, pitch, heading, airspeed, altitude, vertical speed and g-load are
    as they were; only a tick moves them. *)
Theorem events_leave_flight_vars (es : list Event) (s s' : Sim F) :
  handle_events s es = Some s' -> flight_vars s' = flight_vars s.
Proof.
  revert s. induction es as [|e es IH]; intros s H; cbn in H.
  - injection H as <-. reflexivity.
  - bind_inv H. rewrite (IH _ H). clear IH H.
    destruct e; unfold handle_event in E.
    + injection E as <-. reflexivity.
    + apply turn_knob_keeps in E as (-> & _).
      destruct (ias_knob_keeps pos (alt_knob pos (press_mode_buttons pos s))) as (-> & _).
      destruct (alt_knob_keeps pos (press_mode_buttons pos s)) as (-> & _).
      apply (press_mode_buttons_keeps pos buttons s).
    + injection E as <-. reflexivity.
Qed.

End EventFacts.

Lemma events_leave_flight_vars_witness :
  exists s' : Sim float,
    handle_events banked_left
      [MOUSEBUTTONDOWN (950, 480); MOUSEBUTTONDOWN (1000, 290); QUIT] = Some s' /\
    flight_vars s' = flight_vars banked_left.
Proof.
  eexists. split; [vm_compute; reflexivity|].
  match goal with
  | |- flight_vars ?s = _ =>
      apply (events_leave_flight_vars
               [MOUSEBUTTONDOWN (950, 480); MOUSEBUTTONDOWN (1000, 290); QUIT]
               banked_left s)
  end.
  vm_compute. reflexivity.
Defined.

(** ** The turn knob and [BANK_OPTIONS] *)

Section TurnKnobFacts.

Context {F : Type} {AF : Arith F}.
Local Open Scope num_scope.

Lemma bank_index (i : nat) :
  (i < 9)%nat -> index BANK_OPTIONS (nth i BANK_OPTIONS 0%Z) = Some i.
Proof.
  intros H. do 9 (destruct i as [|i]; [reflexivity|]). lia.
Qed.

Lemma bank_nth_In (i : nat) : In (nth i BANK_OPTIONS 0%Z) BANK_OPTIONS.
Proof.
  destruct (Nat.lt_ge_cases i (length BANK_OPTIONS)) as [L | G].
  - apply nth_In, L.
  - rewrite nth_overflow by exact G. cbn. tauto.
Qed.

Lemma turn_knob_valid (pos : Z * Z) (s : Sim F) :
  In (bank_angle s) BANK_OPTIONS ->
  exists s' : Sim F, turn_knob pos s = Some s' /\ In (bank_angle s') BANK_OPTIONS.
Proof.
  intros V. unfold turn_knob.
  assert (exists s1 : Sim F,
            (if collidepoint TURN_UP pos
             then idx <- index BANK_OPTIONS (bank_angle s) ;;
                  Some (if (idx <? length BANK_OPTIONS - 1)%nat
                        then set_bank_angle (nth (idx + 1) BANK_OPTIONS 0%Z) s
                        else s)
             else Some s) = Some s1 /\ In (bank_angle s1) BANK_OPTIONS)
    as (s1 & -> & V1).
  { destruct (collidepoint TURN_UP pos); [|eexists; split; [reflexivity | exact V]].
    destruct (index_In _ _ V) as (i & -> & _). cbn [bind].
    eexists; split; [reflexivity|].
    destruct (i <? length BANK_OPTIONS - 1)%nat; [apply bank_nth_In | exact V]. }
  cbn [bind].
  destruct (collidepoint TURN_DN pos); [|eexists; split; [reflexivity | exact V1]].
  destruct (index_In _ _ V1) as (i & -> & _). cbn [bind].
  eexists; split; [reflexivity|].
  destruct (0 <? i)%nat; [apply bank_nth_In | exact V1].
Qed.

Lemma handle_event_valid (s : Sim F) (e : Event) :
  In (bank_angle s) BANK_OPTIONS ->
  exists s' : Sim F, handle_event s e = Some s' /\ In (bank_angle s') BANK_OPTIONS.
Proof.
  intros V. destruct e; unfold handle_event.
  - eexists; split; [reflexivity | exact V].
  - apply turn_knob_valid.
    destruct (ias_knob_keeps pos (alt_knob pos (press_mode_buttons pos s))) as (_ & -> & _).
    destruct (alt_knob_keeps pos (press_mode_buttons pos s)) as (_ & _ & -> & _).
    destruct (press_mode_buttons_keeps pos buttons s) as (_ & B & _).
    apply (f_equal snd) in B.
    change (bank_angle (press_mode_buttons pos s) = bank_angle s) in B.
    rewrite B. exact V.
  - eexists; split; [reflexivity | exact V].
Qed.

Lemma click_turn (pos : Z * Z) (s : Sim F) :
  collidepoint TURN_UP pos = true \/ collidepoint TURN_DN pos = true ->
  handle_event s (MOUSEBUTTONDOWN pos) = turn_knob pos s.
Proof.
  intros H. unfold handle_event.
  rewrite press_mode_buttons_miss by (destruct H; rect_solve).
  rewrite alt_knob_miss, ias_knob_miss by (destruct H; rect_solve).
  reflexivity.
Qed.

Lemma events_keep_bank_in_options_aux (es : list Event) (s : Sim F) :
  In (bank_angle s) BANK_OPTIONS ->
  exists s' : Sim F,
    handle_events s es = Some s' /\ In (bank_angle s') BANK_OPTIONS.
Proof.
  revert s. induction es as [|e es IH]; intros s V; cbn [handle_events].
  - eexists; split; [reflexivity | exact V].
  - destruct (handle_event_valid s e V) as (s1 & -> & V1). cbn [bind].
    apply IH, V1.
Qed.

(** X2. The turn knob keeps [bank_angle] inside [BANK_OPTIONS], and with it
    no event raises: from a state whose bank angle is one of the options,
    every list of events is handled and leaves a bank angle that is one of
    the options. *)
Theorem events_keep_bank_in_options (es : list Event) (s : Sim F) :
  In (bank_angle s) BANK_OPTIONS ->
  exists s' : Sim F,
    handle_events s es = Some s' /\ In (bank_angle s') BANK_OPTIONS.
Proof. apply events_keep_bank_in_options_aux. Qed.

(** X3. [BANK_OPTIONS.index] is the one place where an event can raise: when
    [bank_angle] is not one of the options, a click on either half of the
    turn knob raises [ValueError]. *)
Theorem turn_knob_raises_off_options (pos : Z * Z) (s : Sim F) :
  ~ In (bank_angle s) BANK_OPTIONS ->
  collidepoint TURN_UP pos = true \/ collidepoint TURN_DN pos = true ->
  handle_event s (MOUSEBUTTONDOWN pos) = None.
Proof.
  intros N H. rewrite (click_turn pos s H). unfold turn_knob.
  destruct H as [H | H].
  - rewrite H, (index_not_In _ _ N). reflexivity.
  - assert (collidepoint TURN_UP pos = false) as -> by rect_solve.
    cbn [bind]. rewrite H, (index_not_In _ _ N). reflexivity.
Qed.

(** One click on either half of the turn knob. *)
Lemma turn_knob_step (pos : Z * Z) (s : Sim F) (i : nat) (up : bool) :
  (i < 9)%nat ->
  bank_angle s = nth i BANK_OPTIONS 0%Z ->
  collidepoint (if up then TURN_UP else TURN_DN) pos = true ->
  handle_event s (MOUSEBUTTONDOWN pos) =
  Some (set_bank_angle
          (nth (if up then Nat.min (i + 1) 8 else i - 1) BANK_OPTIONS 0%Z) s).
Proof.
  intros L B H.
  rewrite click_turn by (destruct up; [left | right]; exact H).
  unfold turn_knob. destruct up.
  - rewrite H. assert (collidepoint TURN_DN pos = false) as -> by rect_solve.
    rewrite B, (bank_index i L). cbn [bind].
    destruct (i <? length BANK_OPTIONS - 1)%nat eqn:T.
    + apply Nat.ltb_lt in T. cbn in T.
      replace (Nat.min (i + 1) 8) with (i + 1)%nat by lia. reflexivity.
    + apply Nat.ltb_ge in T. cbn in T.
      replace (Nat.min (i + 1) 8) with i by lia.
      rewrite <- B. destruct s; reflexivity.
  - assert (collidepoint TURN_UP pos = false) as -> by rect_solve.
    cbn [bind]. rewrite H, B, (bank_index i L). cbn [bind].
    destruct (0 <? i)%nat eqn:T; [reflexivity|].
    apply Nat.ltb_ge in T. replace (i - 1)%nat with i by lia.
    rewrite <- B. destruct s; reflexivity.
Qed.

(** X4. A click on "TURN +" moves [bank_angle] to the next option of
    [-65, -60, -45, -30, 0, 30, 45, 60, 65] and stops at 65; a click on
    "TURN -" moves it to the previous option and stops at -65. Nothing else
    changes. *)
Theorem turn_knob_steps (pos : Z * Z) (s : Sim F) (i : nat) (up : bool) :
  (i < 9)%nat ->
  bank_angle s = nth i BANK_OPTIONS 0%Z ->
  collidepoint (if up then TURN_UP else TURN_DN) pos = true ->
  handle_event s (MOUSEBUTTONDOWN pos) =
  Some (set_bank_angle
          (nth (if up then Nat.min (i + 1) 8 else i - 1) BANK_OPTIONS 0%Z) s).
Proof. apply turn_knob_step. Qed.

(** X5. Away from the ends of [BANK_OPTIONS] the two halves of the turn knob
    undo each other: "TURN +" then "TURN -" gives back the state when the
    bank angle is not 65, and "TURN -" then "TURN +" when it is not -65. *)
Theorem turn_knob_round_trip (pu pd : Z * Z) (s : Sim F) (i : nat) :
  (i < 9)%nat ->
  bank_angle s = nth i BANK_OPTIONS 0%Z ->
  collidepoint TURN_UP pu = true ->
  collidepoint TURN_DN pd = true ->
  ((i < 8)%nat ->
   handle_events s [MOUSEBUTTONDOWN pu; MOUSEBUTTONDOWN pd] = Some s) /\
  ((0 < i)%nat ->
   handle_events s [MOUSEBUTTONDOWN pd; MOUSEBUTTONDOWN pu] = Some s).
Proof.
  intros L B U D. split; intros E; cbn [handle_events].
  - rewrite (turn_knob_step pu s i true L B U). cbn [bind].
    replace (Nat.min (i + 1) 8) with (i + 1)%nat by lia.
    rewrite (turn_knob_step pd _ (i + 1) false) by (try lia; auto).
    cbn [bind]. replace (i + 1 - 1)%nat with i by lia.
    rewrite <- B. destruct s; reflexivity.
  - rewrite (turn_knob_step pd s i false L B D). cbn [bind].
    rewrite (turn_knob_step pu _ (i - 1) true) by (try lia; auto).
    cbn [bind]. replace (Nat.min (i - 1 + 1) 8) with i by lia.
    rewrite <- B. destruct s; reflexivity.
Qed.

End TurnKnobFacts.

(** ** One click, one control *)

Section ControlFacts.

Context {F : Type} {AF : Arith F}.
Local Open Scope num_scope.

Lemma controls_list :
  controls =
  [mkRect 850 100 300 60; mkRect 850 180 300 60; mkRect 850 260 300 60;
   mkRect 850 340 300 60; ALT_UP; ALT_DN; IAS_UP; IAS_DN; TURN_UP; TURN_DN].
Proof. reflexivity. Qed.

(** X6. The ten rectangles of the panel (four mode buttons, six knob halves)
    share no point: a click that lands in one of them lands in no other, so
    an event acts on at most one control. *)
Theorem controls_are_disjoint (i j : nat) (pos : Z * Z) :
  (i < length controls)%nat -> (j < length controls)%nat -> i <> j ->
  collidepoint (nth i controls ALT_UP) pos = true ->
  collidepoint (nth j controls ALT_UP) pos = false.
Proof.
  intros Li Lj N H. rewrite controls_list in *. cbn [length] in Li, Lj.
  do 10 (destruct i as [|i]; [
    do 10 (destruct j as [|j]; [
      first [ congruence
            | cbn [nth] in *;
              match goal with
              | K : collidepoint ?a pos = true |- collidepoint ?b pos = false =>
                  exact (Rect_disjoint_miss a b pos eq_refl K)
              end ] |]); lia |]).
  lia.
Qed.

(** X7. A click outside every control changes nothing. *)
Theorem click_outside_controls (pos : Z * Z) (s : Sim F) :
  (forall r : Rect, In r controls -> collidepoint r pos = false) ->
  handle_event s (MOUSEBUTTONDOWN pos) = Some s.
Proof.
  intros H. unfold handle_event.
  assert (press_mode_buttons pos s = s) as ->.
  { unfold press_mode_buttons. apply (press_mode_buttons_fold pos buttons s).
    apply Forall_forall. intros mr I. apply H. unfold controls.
    apply in_or_app. left. apply in_map, I. }
  assert (forall r, In r [ALT_UP; ALT_DN; IAS_UP; IAS_DN; TURN_UP; TURN_DN] ->
                    collidepoint r pos = false) as K.
  { intros r I. apply H. unfold controls. apply in_or_app. right. exact I. }
  rewrite alt_knob_miss, ias_knob_miss, turn_knob_miss; try reflexivity;
    apply K; cbn; tauto.
Qed.

(** X8. A click on the airspeed knob moves [IAS_CMD] by 5 kt, up on "IAS +5"
    and down on "IAS -5", and changes nothing else: the mode, in particular,
    never follows the airspeed setpoint. *)
Theorem ias_knob_click (pos : Z * Z) (s : Sim F) (up : bool) :
  collidepoint (if up then IAS_UP else IAS_DN) pos = true ->
  handle_event s (MOUSEBUTTONDOWN pos) =
  Some (set_IAS_CMD (if up then IAS_CMD s + lit 5 else IAS_CMD s - lit 5) s).
Proof.
  intros H. unfold handle_event.
  rewrite press_mode_buttons_miss by (destruct up; rect_solve).
  rewrite alt_knob_miss, turn_knob_miss by (destruct up; rect_solve).
  unfold ias_knob. destruct up.
  - rewrite H. replace (collidepoint IAS_DN pos) with false by (symmetry; rect_solve).
    reflexivity.
  - rewrite H. replace (collidepoint IAS_UP pos) with false by (symmetry; rect_solve).
    reflexivity.
Qed.

(** X9. A click on a mode button selects that button's mode, whatever the
    mode was (an [ALT_CAPTURE] in progress included), stores the replaced
    mode in [prev_mode] and changes nothing else; the setpoints stay. *)
Theorem mode_button_click (pos : Z * Z) (s : Sim F) (m : Mode) (rect : Rect) :
  In (m, rect) buttons ->
  collidepoint rect pos = true ->
  handle_event s (MOUSEBUTTONDOWN pos) =
  Some (set_mode m (set_prev_mode (mode s) s)).
Proof. apply click_mode_button. Qed.

End ControlFacts.

Lemma controls_are_disjoint_witness :
  collidepoint (nth 4 (controls) ALT_UP) (950, 480) = true /\
  collidepoint (nth 5 (controls) ALT_UP) (950, 480) = false.
Proof.
  split; [reflexivity|].
  apply (controls_are_disjoint 4 5 (950, 480)); cbn; try lia; reflexivity.
Defined.

Lemma click_outside_controls_witness :
  handle_event (init (F := float)) (MOUSEBUTTONDOWN (400, 400)) = Some init.
Proof.
  apply (click_outside_controls (400, 400) init).
  intros r I. rewrite controls_list in I. cbn in I.
  repeat (destruct I as [<- | I]; [reflexivity|]). destruct I.
Defined.

Lemma ias_knob_click_witness :
  collidepoint (if false then IAS_UP else IAS_DN) (1050, 580) = true /\
  handle_event (init (F := float)) (MOUSEBUTTONDOWN (1050, 580)) =
  Some (set_IAS_CMD 95%float init).
Proof.
  split; [reflexivity|].
  rewrite (ias_knob_click (1050, 580) init false eq_refl).
  vm_compute. reflexivity.
Defined.

Lemma mode_button_click_witness :
  In (ROLLS, mkRect 850 340 300 60) buttons /\
  collidepoint (mkRect 850 340 300 60) (1000, 370) = true /\
  handle_event (init (F := float)) (MOUSEBUTTONDOWN (1000, 370)) =
  Some (set_mode ROLLS (set_prev_mode CRUISE init)).
Proof.
  assert (In (ROLLS, mkRect 850 340 300 60) buttons) as I by (cbn; tauto).
  split; [exact I|]. split; [reflexivity|].
  exact (mode_button_click (1000, 370) init ROLLS _ I eq_refl).
Defined.

Lemma events_keep_bank_in_options_witness :
  In (bank_angle (init (F := float))) BANK_OPTIONS /\
  exists s' : Sim float,
    handle_events init [MOUSEBUTTONDOWN (1050, 680); MOUSEBUTTONDOWN (950, 680)]
      = Some s' /\
    In (bank_angle s') BANK_OPTIONS.
Proof.
  assert (In (bank_angle (init (F := float))) BANK_OPTIONS) as V by (cbn; tauto).
  split; [exact V|].
  exact (events_keep_bank_in_options
           [MOUSEBUTTONDOWN (1050, 680); MOUSEBUTTONDOWN (950, 680)] init V).
Defined.

Lemma turn_knob_raises_off_options_witness :
  ~ In (bank_angle (set_bank_angle 10 (init (F := float)))) BANK_OPTIONS /\
  handle_event (set_bank_angle 10 (init (F := float))) (MOUSEBUTTONDOWN (950, 680))
  = None.
Proof.
  assert (~ In (bank_angle (set_bank_angle 10 (init (F := float)))) BANK_OPTIONS) as N.
  { cbn. intros H. repeat (destruct H as [H | H]; [discriminate H|]). exact H. }
  split; [exact N|].
  apply (turn_knob_raises_off_options (950, 680) _ N). left. reflexivity.
Defined.

Lemma turn_knob_steps_witness :
  handle_event (init (F := float)) (MOUSEBUTTONDOWN (950, 680)) =
  Some (set_bank_angle 30 init).
Proof.
  rewrite (turn_knob_steps (950, 680) (init (F := float)) 4 true);
    try reflexivity. lia.
Defined.

Lemma turn_knob_round_trip_witness :
  handle_events (init (F := float))
    [MOUSEBUTTONDOWN (950, 680); MOUSEBUTTONDOWN (1050, 680)] = Some init.
Proof.
  apply (proj1 (turn_knob_round_trip (950, 680) (1050, 680) (init (F := float)) 4
                  ltac:(lia) eq_refl eq_refl eq_refl)).
  lia.
Defined.

(** ** Ticks *)

Section TickFrame.

Context {F : Type} {AF : Arith F} {TF : Trig F}.
Local Open Scope num_scope.

Lemma g_decay_keeps (s : Sim F) (dt : F) :
  setpoints (g_decay s dt) = setpoints s /\
  prev_mode (g_decay s dt) = prev_mode s /\
  running (g_decay s dt) = running s.
Proof.
  unfold g_decay. destruct (negb (Mode_eqb (mode s) ROLLS)); repeat split; reflexivity.
Qed.

Lemma heading_dynamics_keeps (s s' : Sim F) (dt : F) :
  heading_dynamics s dt = Some s' ->
  setpoints s' = setpoints s /\ prev_mode s' = prev_mode s /\ running s' = running s.
Proof.
  unfold heading_dynamics. intros H.
  destruct (_ && _); bind_inv H; injection H as <-; repeat split; reflexivity.
Qed.

Lemma tick_keeps (s s' : Sim F) (dt : F) :
  tick s dt = Some s' ->
  setpoints s' = setpoints s /\ prev_mode s' = prev_mode s /\ running s' = running s.
Proof.
  intros H. apply tick_stages in H as (s1 & H1 & H2).
  apply heading_dynamics_keeps in H2 as (A & B & C).
  destruct (g_decay_keeps s1 dt) as (A' & B' & C').
  apply flight_logic_frame in H1 as (_ & R & P & X & Y & Z).
  rewrite A, B, C, A', B', C'. unfold setpoints. rewrite R, P, X, Y, Z.
  repeat split; reflexivity.
Qed.

(** What a run of ticks leaves alone. *)
Lemma run_keeps (n : nat) (s s' : Sim F) (dt : F) :
  run n s dt = Some s' ->
  setpoints s' = setpoints s /\ prev_mode s' = prev_mode s /\ running s' = running s.
Proof.
  revert s. induction n as [|n IH]; intros s H; cbn in H.
  - injection H as <-. repeat split; reflexivity.
  - bind_inv H. destruct (IH _ H) as (A & B & C).
    destruct (tick_keeps _ _ _ E) as (A' & B' & C').
    rewrite A, B, C. repeat split; assumption.
Qed.

(** X10. Ticks act on the flight variables and the mode only: over any number
    of ticks the setpoints [ALTITUDE_CMD], [IAS_CMD] and [bank_angle], the
    recorded [prev_mode] and the [running] flag are as they were. *)
Theorem ticks_leave_setpoints (n : nat) (s s' : Sim F) (dt : F) :
  run n s dt = Some s' ->
  setpoints s' = setpoints s /\ prev_mode s' = prev_mode s /\ running s' = running s.
Proof. apply run_keeps. Qed.

(** X11. Left to the ticks, the mode only moves forward along
    [CLIMB] or [DESCENT], then [ALT_CAPTURE], then [CRUISE]: a climb never
    turns into a descent or back from capture, [CRUISE] is left by no tick,
    and [ROLLS] is neither entered nor left by a tick. *)
Theorem mode_only_moves_forward (n : nat) (s s' : Sim F) (dt : F) :
  run n s dt = Some s' ->
  match mode s with
  | CLIMB => mode s' = CLIMB \/ mode s' = ALT_CAPTURE \/ mode s' = CRUISE
  | DESCENT => mode s' = DESCENT \/ mode s' = ALT_CAPTURE \/ mode s' = CRUISE
  | ALT_CAPTURE => mode s' = ALT_CAPTURE \/ mode s' = CRUISE
  | CRUISE => mode s' = CRUISE
  | ROLLS => mode s' = ROLLS
  end.
Proof.
  revert s. induction n as [|n IH]; intros s H; cbn in H.
  - injection H as <-. destruct (mode s); tauto.
  - bind_inv H. apply IH in H. apply tick_mode in E.
    destruct (mode s);
      repeat match type of E with
      | context [if ?b then _ else _] => destruct b
      end;
      rewrite E in H; tauto.
Qed.

Lemma flight_logic_level (s s1 : Sim F) (dt : F) :
  flight_logic s dt = Some s1 ->
  mode s = CRUISE \/ mode s = ROLLS ->
  altitude s1 = altitude s.
Proof.
  unfold flight_logic. intros H [M | M]; rewrite M in H; cbn in H; bind_inv H;
    injection H as <-; reflexivity.
Qed.

Lemma tick_level (s s' : Sim F) (dt : F) :
  tick s dt = Some s' ->
  mode s = CRUISE \/ mode s = ROLLS ->
  mode s' = mode s /\ altitude s' = altitude s.
Proof.
  intros H M. pose proof (tick_mode _ _ _ H) as T.
  apply tick_stages in H as (s1 & H1 & H2).
  apply heading_dynamics_frame in H2 as (_ & _ & _ & -> & _).
  pose proof (g_decay_frame s1 dt) as (_ & _ & _ & _ & -> & _).
  rewrite (flight_logic_level _ _ _ H1 M).
  split; [|reflexivity]. destruct M as [M | M]; rewrite M in *; exact T.
Qed.

(** Runs in the level modes. *)
Lemma run_level (n : nat) (s s' : Sim F) (dt : F) :
  run n s dt = Some s' ->
  mode s = CRUISE \/ mode s = ROLLS ->
  mode s' = mode s /\ altitude s' = altitude s.
Proof.
  revert s. induction n as [|n IH]; intros s H M; cbn in H.
  - injection H as <-. split; reflexivity.
  - bind_inv H. destruct (tick_level _ _ _ E M) as (A & B).
    destruct (IH _ H) as (A' & B'); [rewrite A; exact M|].
    rewrite A', B', A, B. split; reflexivity.
Qed.

(** X12. [CRUISE] and [ROLLS] fly level: over any number of ticks from either
    mode the mode stays and the altitude is bit for bit the one it started
    with (the vertical speed is never integrated there). *)
Theorem level_modes_hold_altitude (n : nat) (s s' : Sim F) (dt : F) :
  run n s dt = Some s' ->
  mode s = CRUISE \/ mode s = ROLLS ->
  mode s' = mode s /\ altitude s' = altitude s.
Proof. apply run_level. Qed.

(** X13. Once the capture test fires the aircraft sits on the commanded
    altitude: the tick that starts in [ALT_CAPTURE] within 5 ft switches to
    [CRUISE], and after it and any number of further ticks the altitude equals
    [ALTITUDE_CMD] exactly. *)
Theorem capture_then_hold (n : nat) (s s' : Sim F) (dt : F) :
  mode s = ALT_CAPTURE ->
  (fabs (ALTITUDE_CMD s - altitude s) <? lit 5) = true ->
  run (S n) s dt = Some s' ->
  mode s' = CRUISE /\ altitude s' = ALTITUDE_CMD s /\
  ALTITUDE_CMD s' = ALTITUDE_CMD s.
Proof.
  intros M C H. cbn [run] in H. bind_inv H.
  pose proof (tick_mode _ _ _ E) as T. rewrite M, C in T.
  assert (altitude s0 = ALTITUDE_CMD s) as A.
  { apply tick_stages in E as (s1 & H1 & H2).
    apply heading_dynamics_frame in H2 as (_ & _ & _ & -> & _).
    pose proof (g_decay_frame s1 dt) as (_ & _ & _ & _ & -> & _).
    apply (flight_logic_capture s s1 dt H1 M C). }
  destruct (run_level n s0 s' dt H) as (A' & B'); [left; exact T|].
  destruct (run_keeps (S n) s s' dt) as (P & _).
  { cbn [run]. rewrite E. exact H. }
  apply (f_equal (fun p => fst (fst p))) in P. cbn in P.
  rewrite A', B', T, A. repeat split; first [reflexivity | exact P].
Qed.

End TickFrame.

Lemma ticks_leave_setpoints_witness :
  exists s' : Sim float,
    run (TF := SampleTrig) 3 climb_start dt60 = Some s' /\
    setpoints s' = (2000, 100, 0%Z)%float.
Proof.
  eexists. split; [vm_compute; reflexivity|].
  match goal with
  | |- setpoints ?s = _ =>
      destruct (ticks_leave_setpoints (TF := SampleTrig) 3 climb_start s dt60)
        as (P & _); [vm_compute; reflexivity | rewrite P]
  end.
  vm_compute. reflexivity.
Defined.

Lemma mode_only_moves_forward_witness :
  exists s' : Sim float,
    run (TF := SampleTrig) 3 climb_start dt60 = Some s' /\
    (mode s' = CLIMB \/ mode s' = ALT_CAPTURE \/ mode s' = CRUISE).
Proof.
  eexists. split; [vm_compute; reflexivity|].
  match goal with
  | |- mode ?s = _ \/ _ =>
      apply (mode_only_moves_forward (TF := SampleTrig) 3 climb_start s dt60)
  end.
  vm_compute. reflexivity.
Defined.

Lemma level_modes_hold_altitude_witness :
  exists s' : Sim float,
    run (TF := SampleTrig) 3 banked_left dt16 = Some s' /\
    mode s' = ROLLS /\ altitude s' = 1000%float.
Proof.
  eexists. split; [vm_compute; reflexivity|].
  match goal with
  | |- mode ?s = _ /\ _ =>
      destruct (level_modes_hold_altitude (TF := SampleTrig) 3 banked_left s dt16)
        as (A & B); [vm_compute; reflexivity | right; reflexivity |]
  end.
  rewrite A, B. split; vm_compute; reflexivity.
Defined.

Lemma capture_then_hold_witness :
  exists s' : Sim float,
    run (TF := SampleTrig) 3
      (set_mode ALT_CAPTURE (set_altitude 1996%float climb_start)) dt60 = Some s' /\
    mode s' = CRUISE /\ altitude s' = 2000%float.
Proof.
  eexists. split; [vm_compute; reflexivity|].
  match goal with
  | |- mode ?s = _ /\ _ =>
      destruct (capture_then_hold (TF := SampleTrig) 2
                  (set_mode ALT_CAPTURE (set_altitude 1996%float climb_start)) s dt60)
        as (A & B & _);
        [reflexivity | vm_compute; reflexivity | vm_compute; reflexivity |]
  end.
  rewrite A, B. split; vm_compute; reflexivity.
Defined.

(** ** The loop as a whole *)

Section LoopFacts.

Context {F : Type} {AF : Arith F} {TF : Trig F}.
Local Open Scope num_scope.

Lemma handle_event_running (s s' : Sim F) (e : Event) :
  handle_event s e = Some s' ->
  running s' = match e with QUIT => false | _ => running s end.
Proof.
  intros H. destruct e; unfold handle_event in H.
  - injection H as <-. reflexivity.
  - apply turn_knob_keeps in H as (_ & -> & _).
    destruct (ias_knob_keeps pos (alt_knob pos (press_mode_buttons pos s)))
      as (_ & _ & ->).
    destruct (alt_knob_keeps pos (press_mode_buttons pos s)) as (_ & _ & _ & ->).
    apply (press_mode_buttons_keeps pos buttons s).
  - injection H as <-. reflexivity.
Qed.

Lemma handle_events_running (es : list Event) (s s' : Sim F) :
  handle_events s es = Some s' ->
  (running s = false -> running s' = false) /\
  (In QUIT es -> running s' = false) /\
  (~ In QUIT es -> running s' = running s).
Proof.
  revert s. induction es as [|e es IH]; intros s H; cbn in H.
  - injection H as <-. repeat split; auto. intros [].
  - bind_inv H. destruct (IH _ H) as (A & B & C).
    pose proof (handle_event_running _ _ _ E) as R.
    repeat split.
    + intros Z. apply A. rewrite R. destruct e; auto.
    + intros [-> | I]; [apply A; exact R | apply B, I].
    + intros N. rewrite C by (intros I; apply N; right; exact I).
      rewrite R. destruct e; try reflexivity. exfalso. apply N. left. reflexivity.
Qed.

(** X14. [QUIT] ends the loop and nothing restarts it: the frame in which a
    [QUIT] event arrives (wherever it stands among the frame's events) still
    runs to its end and leaves [running] false, and from then on the loop
    makes no further change, whatever frames follow. *)
Theorem quit_stops_the_loop (s s' : Sim F) (dt : F) (es : list Event)
  (frames : list (F * list Event)) :
  frame s dt es = Some s' ->
  In QUIT es ->
  running s' = false /\ main_loop s' frames = Some s'.
Proof.
  intros H Q. unfold frame in H. bind_inv H.
  apply handle_events_running in E as (_ & B & _).
  apply tick_keeps in H as (_ & _ & R).
  assert (running s' = false) as Z by (rewrite R; apply B, Q).
  split; [exact Z|]. destruct frames; cbn; [reflexivity|]. rewrite Z. reflexivity.
Qed.

End LoopFacts.

Section LoopSafety.

Context {TF : Trig float}.
Local Open Scope num_scope.



(** X16. The vertical speed commanded in [ALT_CAPTURE] is limited to 500
    ft/min either way: at binary64 [np.clip(x, -500, 500)] lies in
    [-500, 500] for every [x] that is a number (infinities included), and is
    NaN only when [x] is. *)
Theorem vs_cmd_is_clipped (x : float) :
  (isnan x = false ->
   (lit (-500) <=? np_clip x (lit (-500)) (lit 500)) = true /\
   (np_clip x (lit (-500)) (lit 500) <=? lit 500) = true) /\
  (isnan x = true -> isnan (np_clip x (lit (-500)) (lit 500)) = true).
Proof.
  unfold np_clip, np_maximum, np_minimum. split; intros N; rewrite N; cbn [orb].
  - destruct (x >? lit (-500)) eqn:A.
    + rewrite N. cbn [orb]. destruct (x <? lit 500) eqn:B.
      * split; apply Binary64Facts.ltb_leb; assumption.
      * split; vm_compute; reflexivity.
    + split; vm_compute; reflexivity.
  - rewrite N. cbn [orb]. exact N.
Qed.

End LoopSafety.

Lemma quit_stops_the_loop_witness :
  exists s' : Sim float,
    frame (TF := SampleTrig) init dt16 [QUIT; MOUSEBUTTONDOWN (950, 480)] = Some s' /\
    running s' = false /\
    main_loop (TF := SampleTrig) s' [(dt16, [MOUSEBUTTONDOWN (1000, 370)])] = Some s'.
Proof.
  eexists. split; [vm_compute; reflexivity|].
  match goal with
  | |- running ?s = false /\ _ =>
      apply (quit_stops_the_loop (TF := SampleTrig) init s dt16
               [QUIT; MOUSEBUTTONDOWN (950, 480)])
  end.
  - vm_compute. reflexivity.
  - left. reflexivity.
Defined.


Lemma vs_cmd_is_clipped_witness :
  isnan 4000%float = false /\
  (lit (-500) <=? np_clip 4000%float (lit (-500)) (lit 500))%num = true /\
  (np_clip 4000%float (lit (-500)) (lit 500) <=? lit 500)%num = true.
Proof.
  assert (isnan 4000%float = false) as N by reflexivity.
  split; [exact N|]. exact (proj1 (vs_cmd_is_clipped 4000%float) N).
Defined.

(** ** The panel *)

(** X17. The panel highlights the button of the current mode and no other;
    during [ALT_CAPTURE], which has no button, none is highlighted. *)
Theorem one_button_highlighted (current : Mode) :
  highlighted current = if Mode_eqb current ALT_CAPTURE then [] else [current].
Proof. destruct current; reflexivity. Qed.

(** ** Layout *)

Section LayoutMore.

Context {F : Type} {AF : Arith F}.
Variable background_rect_right : Pfd.Instrument F -> F.
Local Open Scope num_scope.

(** X18. The [little] option swaps the airspeed, altitude and vertical-speed
    instruments for their "Little" classes and moves nothing: every size, and
    the positions of the airspeed, altitude and heading indicators, are the
    same with and without it; the artificial horizon and the heading
    indicator keep their class. *)
Theorem little_keeps_the_layout (res : Z * Z) (max_fps : option Z) (masked : bool) :
  let big := Pfd.new background_rect_right res max_fps masked false in
  let small := Pfd.new background_rect_right res max_fps masked true in
  Pfd.unit small = Pfd.unit big /\
  Pfd.artifical_horizon small = Pfd.artifical_horizon big /\
  Pfd.heading_indicator small = Pfd.heading_indicator big /\
  Pfd.size (Pfd.airspeed_indicator small) = Pfd.size (Pfd.airspeed_indicator big) /\
  Pfd.size (Pfd.altitude_indicator small) = Pfd.size (Pfd.altitude_indicator big) /\
  Pfd.size (Pfd.vspeed_indicator small) = Pfd.size (Pfd.vspeed_indicator big) /\
  Pfd.position (Pfd.airspeed_indicator small) =
    Pfd.position (Pfd.airspeed_indicator big) /\
  Pfd.position (Pfd.altitude_indicator small) =
    Pfd.position (Pfd.altitude_indicator big) /\
  Pfd.cls (Pfd.airspeed_indicator small) = Pfd.AirspeedIndicatorLittle /\
  Pfd.cls (Pfd.altitude_indicator small) = Pfd.AltitudeIndicatorLittle /\
  Pfd.cls (Pfd.vspeed_indicator small) = Pfd.VerticalSpeedIndicatoLittle /\
  Pfd.cls (Pfd.airspeed_indicator big) = Pfd.AirspeedIndicator /\
  Pfd.cls (Pfd.altitude_indicator big) = Pfd.AltitudeIndicator /\
  Pfd.cls (Pfd.vspeed_indicator big) = Pfd.VerticalSpeedIndicator.
Proof. cbn. repeat split; reflexivity. Qed.

End LayoutMore.

Section ExactLayout.

Variable background_rect_right : Pfd.Instrument Q -> Q.
Local Open Scope Q_scope.

Lemma exact_unit (w h : Z) (max_fps : option Z) (masked little : bool) :
  Pfd.unit (Pfd.new background_rect_right (w, h) max_fps masked little) ==
  inject_Z (Z.min w h) / 16.
Proof. cbn. reflexivity. Qed.

(** X19. In exact arithmetic the layout scales with the resolution: for an
    integer factor [k >= 0], a display of [(k w, k h)] has [k] times the
    [unit] of a display of [(w, h)], and with it [k] times the offsets
    [5 unit] of the airspeed, altitude and heading indicators from the
    centre. *)
Theorem unit_scales_with_resolution (k w h : Z) (max_fps : option Z)
  (masked little : bool) :
  (0 <= k)%Z ->
  Pfd.unit (Pfd.new background_rect_right (k * w, k * h)%Z max_fps masked little) ==
  inject_Z k * Pfd.unit (Pfd.new background_rect_right (w, h) max_fps masked little).
Proof.
  intros K. rewrite !exact_unit.
  rewrite Z.mul_min_distr_nonneg_l by exact K.
  rewrite inject_Z_mult. field.
Qed.

End ExactLayout.

Lemma unit_scales_with_resolution_witness :
  (0 <= 2)%Z /\
  (Pfd.unit (Pfd.new (fun _ => 0%Q) (2 * 800, 2 * 600)%Z None true false) ==
   inject_Z 2 * Pfd.unit (Pfd.new (fun _ => 0%Q) (800, 600)%Z None true false))%Q.
Proof.
  assert (0 <= 2)%Z as K by lia.
  split; [exact K|].
  exact (unit_scales_with_resolution (fun _ => 0%Q) 2 800 600 None true false K).
Defined.

(** ** Smoothing and the climb, in exact arithmetic *)

Section ExactDynamics.

Context {TQ : Trig Q}.
Local Open Scope Q_scope.

(** X20. In exact arithmetic the distance to the target shrinks by the
    constant factor [1 - r dt] at every step:
    [v_n - t = (v_0 - t) (1 - r dt)^n]. *)
Theorem smooth_seq_closed_form (v t r dt : Q) (n : nat) :
  smooth_seq v t r dt n - t == (v - t) * (1 - r * dt) ^ Z.of_nat n.
Proof.
  induction n as [|n IH].
  - cbn. ring.
  - cbn [smooth_seq]. rewrite smooth_exact.
    rewrite Nat2Z.inj_succ, <- Z.add_1_r.
    rewrite Qpower_plus' by lia.
    rewrite Qpower_1_r.
    set (p := (1 - r * dt) ^ Z.of_nat n) in *.
    assert (smooth_seq v t r dt n == t + (v - t) * p) as E by lra.
    rewrite E. ring.
Qed.

(** X21. [smooth] is not clamped. In exact arithmetic, as soon as
    [r dt > 1] one step carries the value past the target, and when
    [r dt > 2] it ends farther from the target than it started. *)
Theorem smooth_overshoots_past_one (v t r dt : Q) :
  1 < r * dt ->
  (v < t -> t < smooth v t r dt) /\
  (t < v -> smooth v t r dt < t) /\
  (2 < r * dt -> ~ v == t -> Qabs (v - t) < Qabs (smooth v t r dt - t)).
Proof.
  intros P. rewrite smooth_exact.
  assert (forall a b, 0 < a -> 0 < b -> 0 < a * b) as M.
  { intros a b A B. apply Qmult_lt_0_compat; assumption. }
  repeat split.
  - intros L. pose proof (M (t - v) (r * dt - 1)) as K. lra.
  - intros L. pose proof (M (v - t) (r * dt - 1)) as K. lra.
  - intros P2 N. destruct (Q_dec v t) as [[L | L] | E]; [| |contradiction].
    + pose proof (M (t - v) (r * dt - 2)) as K.
      rewrite (Qabs_neg (v - t)) by lra. rewrite Qabs_pos by lra. lra.
    + pose proof (M (v - t) (r * dt - 2)) as K.
      rewrite (Qabs_pos (v - t)) by lra. rewrite Qabs_neg by lra. lra.
Qed.

Lemma smooth_overshoots_past_one_witness :
  1 < 3 * (1 # 2) /\ 0 < 1 /\ 1 < smooth 0 1 3 (1 # 2).
Proof.
  assert (1 < 3 * (1 # 2)) as P by reflexivity.
  assert (0 < 1) as L by reflexivity.
  split; [exact P|]. split; [exact L|].
  exact (proj1 (smooth_overshoots_past_one 0 1 3 (1 # 2) P) L).
Defined.

Lemma tick_climb_exact (s s' : Sim Q) (dt : Q) :
  tick s dt = Some s' -> mode s = CLIMB ->
  vspeed s' = smooth (vspeed s) VS_CLIMB (lit 1.5) dt /\
  altitude s' == altitude s + vspeed s' / 60 * dt.
Proof.
  intros H M. apply tick_stages in H as (s1 & H1 & H2).
  apply heading_dynamics_frame in H2 as (_ & _ & _ & -> & -> & _).
  pose proof (g_decay_frame s1 dt) as (_ & _ & _ & _ & -> & -> & _).
  unfold flight_logic in H1. rewrite M in H1. cbn in H1. injection H1 as <-.
  destruct (Qle_bool _ _); cbn; split; try reflexivity; field.
Qed.

Lemma tick_descent_exact (s s' : Sim Q) (dt : Q) :
  tick s dt = Some s' -> mode s = DESCENT ->
  vspeed s' = smooth (vspeed s) VS_DESCENT (lit 1.5) dt /\
  altitude s' == altitude s + vspeed s' / 60 * dt.
Proof.
  intros H M. apply tick_stages in H as (s1 & H1 & H2).
  apply heading_dynamics_frame in H2 as (_ & _ & _ & -> & -> & _).
  pose proof (g_decay_frame s1 dt) as (_ & _ & _ & _ & -> & -> & _).
  unfold flight_logic in H1. rewrite M in H1. cbn in H1. injection H1 as <-.
  destruct (Qle_bool _ _); cbn; split; try reflexivity; field.
Qed.

(** X22. In exact arithmetic, with a frame time [0 < dt <= 2/3] (so that
    [1.5 dt <= 1]): a tick in [CLIMB] that starts with a vertical speed in
    [0, 700] keeps it in that range, never lowers it and never lowers the
    altitude; a tick in [DESCENT] that starts with a vertical speed in
    [-600, 0] keeps it in that range, never raises it and never raises the
    altitude. *)
Theorem climb_and_descent_are_monotone (s s' : Sim Q) (dt : Q) :
  0 < dt -> (3 # 2) * dt <= 1 ->
  tick s dt = Some s' ->
  (mode s = CLIMB -> 0 <= vspeed s -> vspeed s <= 700 ->
   vspeed s <= vspeed s' /\ vspeed s' <= 700 /\ altitude s <= altitude s') /\
  (mode s = DESCENT -> -600 <= vspeed s -> vspeed s <= 0 ->
   -600 <= vspeed s' /\ vspeed s' <= vspeed s /\ altitude s' <= altitude s).
Proof.
  intros D R H.
  assert (0 < lit 1.5) as R0 by reflexivity.
  assert (lit 1.5 * dt <= 1) as R1.
  { assert (lit 1.5 == 3 # 2) as -> by reflexivity. exact R. }
  assert (forall a b, 0 <= a -> 0 <= b -> 0 <= a * b) as N.
  { intros a b A B. apply Qmult_le_0_compat; assumption. }
  split; intros M Lo Hi.
  - destruct (tick_climb_exact s s' dt H M) as (V & A).
    destruct (smooth_exact_below (vspeed s) VS_CLIMB (lit 1.5) dt R0 D R1) as (B1 & B2).
    { assert (VS_CLIMB == 700) as -> by reflexivity. exact Hi. }
    rewrite <- V in B1, B2.
    assert (VS_CLIMB == 700) as E by reflexivity. rewrite E in B2.
    repeat split; try assumption.
    rewrite A. pose proof (N (vspeed s' / 60) dt) as K.
    assert (0 <= vspeed s' / 60) by (apply Qle_shift_div_l; lra). lra.
  - destruct (tick_descent_exact s s' dt H M) as (V & A).
    destruct (smooth_exact_above (vspeed s) VS_DESCENT (lit 1.5) dt R0 D R1) as (B1 & B2).
    { assert (VS_DESCENT == -600) as -> by reflexivity. exact Lo. }
    rewrite <- V in B1, B2.
    assert (VS_DESCENT == -600) as E by reflexivity. rewrite E in B1.
    repeat split; try assumption.
    rewrite A. pose proof (N (- vspeed s' / 60) dt) as K.
    assert (0 <= - vspeed s' / 60) by (apply Qle_shift_div_l; lra).
    assert (- vspeed s' / 60 * dt == - (vspeed s' / 60 * dt)) as K' by field.
    lra.
Qed.

End ExactDynamics.

Lemma climb_and_descent_are_monotone_witness :
  exists s' : Sim Q,
    tick (TF := LevelTrig) climb_start_exact (1 # 60) = Some s' /\
    (vspeed climb_start_exact <= vspeed s')%Q /\ (vspeed s' <= 700)%Q /\
    (altitude climb_start_exact <= altitude s')%Q.
Proof.
  destruct (tick (TF := LevelTrig) climb_start_exact (1 # 60)) as [s'|] eqn:E;
    [| vm_compute in E; discriminate E].
  exists s'. split; [reflexivity|].
  refine (proj1 (climb_and_descent_are_monotone (TQ := LevelTrig) climb_start_exact s' (1 # 60)
                   _ _ E) eq_refl _ _);
    vm_compute; first [reflexivity | discriminate].
Defined.

(** ** Invariants in exact arithmetic *)

Section RollFacts.

Context {F : Type} {AF : Arith F} {TF : Trig F}.
Local Open Scope num_scope.

(** The roll after a tick: one [smooth] step toward the wings-level or the
    selected bank, at the rate of the mode the tick starts in. *)
Lemma tick_roll (s s' : Sim F) (dt : F) :
  tick s dt = Some s' ->
  roll s' =
  smooth (roll s)
    (match mode s with ROLLS => ofZ (bank_angle s) | _ => lit 0.0 end)
    (match mode s with
     | CLIMB | DESCENT => lit 2.0
     | ALT_CAPTURE => lit 2.5
     | CRUISE => lit 3.0
     | ROLLS => lit 1.5
     end) dt.
Proof.
  intros H. apply tick_stages in H as (s1 & H1 & H2).
  apply heading_dynamics_frame in H2 as (_ & -> & _).
  pose proof (g_decay_frame s1 dt) as (_ & -> & _).
  unfold flight_logic in H1.
  destruct (mode s); cbn in H1; bind_inv H1; injection H1 as <-;
    repeat match goal with |- context [if ?b then _ else _] => destruct b end;
    reflexivity.
Qed.

End RollFacts.

Section ExactInvariants.

Context {TQ : Trig Q}.
Local Open Scope Q_scope.

Lemma smooth_between (lo hi v t r dt : Q) :
  0 < r -> 0 < dt -> r * dt <= 1 ->
  lo <= v -> v <= hi -> lo <= t -> t <= hi ->
  lo <= smooth v t r dt /\ smooth v t r dt <= hi.
Proof.
  intros R D RD V1 V2 T1 T2. destruct (Qlt_le_dec t v) as [L | L].
  - destruct (smooth_exact_above v t r dt R D RD) as [A B]; [lra|]. split; lra.
  - destruct (smooth_exact_below v t r dt R D RD L) as [A B]. split; lra.
Qed.

Lemma bank_options_bound (b : Z) :
  In b BANK_OPTIONS -> -65 <= inject_Z b /\ inject_Z b <= 65.
Proof.
  intros I. cbn in I.
  repeat (destruct I as [<- | I]; [split; vm_compute; discriminate|]).
  contradiction.
Qed.

Lemma tick_roll_bound (s s' : Sim Q) (dt : Q) :
  0 < dt -> 3 * dt <= 1 ->
  In (bank_angle s) BANK_OPTIONS ->
  tick s dt = Some s' ->
  -65 <= roll s /\ roll s <= 65 ->
  -65 <= roll s' /\ roll s' <= 65.
Proof.
  intros D R I H (Lo & Hi). rewrite (tick_roll s s' dt H).
  destruct (bank_options_bound _ I) as (B1 & B2).
  destruct (mode s); apply smooth_between; try assumption;
    try exact B1; try exact B2;
    try (vm_compute; first [reflexivity | discriminate]).
  all: try match goal with
       | |- lit ?q * _ <= 1 =>
           let E := fresh in
           assert (lit q <= 3) as E by (vm_compute; discriminate);
           assert (0 <= lit q) by (vm_compute; discriminate);
           nra
       end.
Qed.

(** X23. The aircraft never banks past the knob's limit. In exact arithmetic,
    with a frame time [0 < dt <= 1/3], a bank angle among [BANK_OPTIONS] and a
    roll within 65 degrees either way, the roll stays within 65 degrees over
    any number of ticks, in every mode. *)
Theorem roll_stays_within_65 (n : nat) (s s' : Sim Q) (dt : Q) :
  0 < dt -> 3 * dt <= 1 ->
  In (bank_angle s) BANK_OPTIONS ->
  run n s dt = Some s' ->
  -65 <= roll s /\ roll s <= 65 ->
  -65 <= roll s' /\ roll s' <= 65.
Proof.
  intros D R. revert s. induction n as [|n IH]; intros s I H B; cbn in H.
  - injection H as <-. exact B.
  - bind_inv H. apply (IH s0); [| exact H | exact (tick_roll_bound s s0 dt D R I E B)].
    destruct (tick_keeps _ _ _ E) as (P & _).
    apply (f_equal snd) in P. cbn in P. rewrite P. exact I.
Qed.

Lemma g_target_bound (c : Q) :
  c <= 1 ->
  1 <= fdiv (lit 1.0) (pymax (lit 0.01) c) /\
  fdiv (lit 1.0) (pymax (lit 0.01) c) <= 100.
Proof.
  intros C. cbn [fdiv ExactArith].
  assert (lit 1.0 == 1) as -> by reflexivity.
  assert (1 # 100 <= pymax (lit 0.01) c /\ pymax (lit 0.01) c <= 1) as (A & B).
  { unfold pymax. cbn [fltb ExactArith].
    assert (lit 0.01 == 1 # 100) as E by reflexivity.
    destruct (Qle_bool c (lit 0.01)) eqn:L; cbn [negb].
    - rewrite E. split; [apply Qle_refl | discriminate].
    - split; [| exact C].
      destruct (Qlt_le_dec (1 # 100) c) as [G | G]; [apply Qlt_le_weak; exact G|].
      rewrite <- E in G. apply Qle_bool_iff in G. congruence. }
  set (d := pymax (lit 0.01) c) in *.
  assert (0 < d) as P by lra.
  split.
  - apply Qle_shift_div_l; [exact P | lra].
  - apply Qle_shift_div_r; [exact P | lra].
Qed.

Lemma tick_g_bound (s s' : Sim Q) (dt : Q) :
  (forall x : Q, cos_rad x <= 1) ->
  0 < dt -> 3 * dt <= 1 ->
  tick s dt = Some s' ->
  1 <= g_factor s /\ g_factor s <= 100 ->
  1 <= g_factor s' /\ g_factor s' <= 100.
Proof.
  intros C D R H (Lo & Hi).
  destruct (g_factor_update s s' dt H) as (A & B).
  destruct (Mode_eqb (mode s) ROLLS) eqn:M.
  - apply Mode_eqb_eq in M. destruct (A M) as (_ & ->).
    destruct (g_target_bound (cos_rad (fabs (roll s'))) (C _)) as (T1 & T2).
    apply smooth_between; try assumption; [reflexivity|].
    assert (lit 3.0 == 3) as -> by reflexivity. exact R.
  - rewrite B by (intros E; apply Mode_eqb_eq in E; congruence).
    apply smooth_between; try assumption;
      try (vm_compute; first [reflexivity | discriminate]).
    assert (lit 2.5 == 5 # 2) as -> by reflexivity. lra.
Qed.

(** X24. The g-load stays between 1 and 100. In exact arithmetic, with a
    cosine that never exceeds 1 and a frame time [0 < dt <= 1/3], a g-load in
    [1, 100] is still there after any number of ticks, in every mode: the
    [max(0.01, ...)] in [compute_g] caps the target at 100. *)
Theorem g_load_stays_in_range (n : nat) (s s' : Sim Q) (dt : Q) :
  (forall x : Q, cos_rad x <= 1) ->
  0 < dt -> 3 * dt <= 1 ->
  run n s dt = Some s' ->
  1 <= g_factor s /\ g_factor s <= 100 ->
  1 <= g_factor s' /\ g_factor s' <= 100.
Proof.
  intros C D R. revert s. induction n as [|n IH]; intros s H B; cbn in H.
  - injection H as <-. exact B.
  - bind_inv H. apply (IH s0 H). exact (tick_g_bound s s0 dt C D R E B).
Qed.

(** X25. In exact arithmetic the heading never leaves [0, 360): from a
    heading in that range, any number of ticks with any frame time, in any
    mode, ends with a heading in that range. *)
Theorem heading_stays_in_range_exact (n : nat) (s s' : Sim Q) (dt : Q) :
  run n s dt = Some s' ->
  0 <= heading s /\ heading s < 360 ->
  0 <= heading s' /\ heading s' < 360.
Proof.
  revert s. induction n as [|n IH]; intros s H B; cbn in H.
  - injection H as <-. exact B.
  - bind_inv H. apply (IH s0 H). exact (heading_in_range_exact s s0 dt E B).
Qed.

Lemma tick_cruise_exact (s s' : Sim Q) (dt : Q) :
  tick s dt = Some s' -> mode s = CRUISE ->
  mode s' = CRUISE /\ IAS_CMD s' = IAS_CMD s /\
  roll s' == roll s * (1 - 3 * dt) /\
  pitch s' == pitch s * (1 - 3 * dt) /\
  vspeed s' == vspeed s * (1 - 3 * dt) /\
  airspeed s' - IAS_CMD s == (airspeed s - IAS_CMD s) * (1 - (6 # 5) * dt).
Proof.
  intros H M. apply tick_stages in H as (s1 & H1 & H2).
  apply heading_dynamics_frame in H2 as (-> & -> & -> & _ & -> & -> & _ & _ & _ & ->).
  pose proof (g_decay_frame s1 dt) as (-> & -> & -> & _ & _ & -> & -> & _ & _ & ->).
  unfold flight_logic in H1. rewrite M in H1. cbv beta iota zeta in H1.
  injection H1 as <-.
  cbn [mode IAS_CMD roll pitch vspeed airspeed set_roll set_pitch set_vspeed set_airspeed].
  split; [exact M|]. split; [reflexivity|].
  repeat split; field.
Qed.

(** X26. How [CRUISE] settles. In exact arithmetic, after [n] ticks in
    [CRUISE] the roll, the pitch and the vertical speed are their starting
    values times [(1 - 3 dt)^n], and the airspeed error to [IAS_CMD] is its
    starting value times [(1 - 1.2 dt)^n]. *)
Theorem cruise_settles (n : nat) (s s' : Sim Q) (dt : Q) :
  mode s = CRUISE ->
  run n s dt = Some s' ->
  roll s' == roll s * (1 - 3 * dt) ^ Z.of_nat n /\
  pitch s' == pitch s * (1 - 3 * dt) ^ Z.of_nat n /\
  vspeed s' == vspeed s * (1 - 3 * dt) ^ Z.of_nat n /\
  airspeed s' - IAS_CMD s ==
    (airspeed s - IAS_CMD s) * (1 - (6 # 5) * dt) ^ Z.of_nat n.
Proof.
  revert s. induction n as [|n IH]; intros s M H; cbn [run] in H.
  - injection H as <-. cbn. repeat split; ring.
  - bind_inv H.
    destruct (tick_cruise_exact s s0 dt E M) as (M' & I & R & P & V & A).
    destruct (IH s0 M' H) as (R' & P' & V' & A').
    rewrite I in A'.
    rewrite Nat2Z.inj_succ, <- Z.add_1_l.
    rewrite !Qpower_plus' by lia. rewrite !Qpower_1_r.
    rewrite R', P', V', A', R, P, V, A. repeat split; ring.
Qed.

End ExactInvariants.

Lemma roll_stays_within_65_witness :
  exists s' : Sim Q,
    run (TF := LevelTrig) 2 banking_exact (1 # 60) = Some s' /\
    (-65 <= roll s')%Q /\ (roll s' <= 65)%Q.
Proof.
  destruct (run (TF := LevelTrig) 2 banking_exact (1 # 60)) as [s'|] eqn:E;
    [| vm_compute in E; discriminate E].
  exists s'. split; [reflexivity|].
  refine (roll_stays_within_65 (TQ := LevelTrig) 2 banking_exact s' (1 # 60)
            _ _ _ E (conj _ _)).
  - vm_compute. reflexivity.
  - vm_compute. discriminate.
  - cbn. do 5 right. left. reflexivity.
  - vm_compute. discriminate.
  - vm_compute. discriminate.
Defined.

Lemma g_load_stays_in_range_witness :
  exists s' : Sim Q,
    run (TF := LevelTrig) 2 banking_exact (1 # 60) = Some s' /\
    (1 <= g_factor s')%Q /\ (g_factor s' <= 100)%Q.
Proof.
  destruct (run (TF := LevelTrig) 2 banking_exact (1 # 60)) as [s'|] eqn:E;
    [| vm_compute in E; discriminate E].
  exists s'. split; [reflexivity|].
  refine (g_load_stays_in_range (TQ := LevelTrig) 2 banking_exact s' (1 # 60)
            _ _ _ E (conj _ _)).
  - intros x. vm_compute. discriminate.
  - vm_compute. reflexivity.
  - vm_compute. discriminate.
  - vm_compute. discriminate.
  - vm_compute. discriminate.
Defined.

Lemma heading_stays_in_range_exact_witness :
  exists s' : Sim Q,
    run (TF := LevelTrig) 2 banking_exact (1 # 60) = Some s' /\
    (0 <= heading s')%Q /\ (heading s' < 360)%Q.
Proof.
  destruct (run (TF := LevelTrig) 2 banking_exact (1 # 60)) as [s'|] eqn:E;
    [| vm_compute in E; discriminate E].
  exists s'. split; [reflexivity|].
  refine (heading_stays_in_range_exact (TQ := LevelTrig) 2 banking_exact s' (1 # 60)
            E (conj _ _)).
  - vm_compute. discriminate.
  - vm_compute. reflexivity.
Defined.

Lemma cruise_settles_witness :
  exists s' : Sim Q,
    run (TF := LevelTrig) 2 (set_mode CRUISE banking_exact) (1 # 60) = Some s' /\
    (roll s' == 20 * (1 - 3 * (1 # 60)) ^ 2)%Q.
Proof.
  destruct (run (TF := LevelTrig) 2 (set_mode CRUISE banking_exact) (1 # 60))
    as [s'|] eqn:E; [| vm_compute in E; discriminate E].
  exists s'. split; [reflexivity|].
  exact (proj1 (cruise_settles (TQ := LevelTrig) 2 (set_mode CRUISE banking_exact) s'
                  (1 # 60) eq_refl E)).
Defined.
